(** * semantic-release-requests: configuration resolution, validation and
      request orchestration

    A shallow embedding of the plugin's TypeScript sources:
    - [lib/models/config.ts]: [Platform], [ReleaseCandidate], [RequestsConfig];
    - [lib/error.ts]: [getConfigError];
    - [lib/verify-config.ts]: [ensureDefault], [verifyConfig];
    - [lib/git.ts]: [ls], [checkout], [fetch], [add], [commit], [push];
    - [lib/requests.ts]: [processRequest], [getBranches], [createRequests];
    - the entry module: [verifyConditions], [prepare], [success].

    Values that TypeScript only types statically (the plugin options read from
    the release configuration) are modelled as run-time JavaScript values, since
    [verifyConfig] exists precisely to inspect them dynamically.  Calls that
    leave the process (the [git] binary, the hosting platform's REST API, the
    logger) are nodes of a program tree that is run against an arbitrary
    environment. *)

From Stdlib Require Import ZArith Ascii String.
From stdpp Require Import base option list strings pretty gmap.

Local Open Scope string_scope.
Local Open Scope list_scope.
#[local] Set Warnings "-register-all".

(** ** Strings, as the sources use them *)

Module Str.

(** [s] is the empty string. *)
Definition is_empty (s : string) : bool :=
  match s with EmptyString => true | String _ _ => false end.

(** [s.startsWith(p)] *)
Fixpoint startsWith (s p : string) : bool :=
  match p, s with
  | EmptyString, _ => true
  | String _ _, EmptyString => false
  | String a p', String b s' => if Ascii.eqb a b then startsWith s' p' else false
  end.

Fixpoint drop (n : nat) (s : string) : string :=
  match n, s with
  | O, _ => s
  | S _, EmptyString => EmptyString
  | S n', String _ s' => drop n' s'
  end.

(** [s.replace(pattern, replacement)] for a string pattern: only the first
    occurrence is replaced. *)
Fixpoint replace (s pattern replacement : string) : string :=
  if startsWith s pattern then replacement +:+ drop (String.length pattern) s
  else match s with
       | EmptyString => EmptyString
       | String c s' => String c (replace s' pattern replacement)
       end.

(** [s.split(sep)] for a one-character separator. *)
Fixpoint split (s : string) (sep : ascii) : list string :=
  match s with
  | EmptyString => [EmptyString]
  | String c s' =>
      if Ascii.eqb c sep then EmptyString :: split s' sep
      else match split s' sep with
           | [] => [String c EmptyString]
           | w :: ws => String c w :: ws
           end
  end.

Definition upper (c : ascii) : ascii :=
  let n := Ascii.nat_of_ascii c in
  if (97 <=? n)%nat && (n <=? 122)%nat then Ascii.ascii_of_nat (n - 32) else c.

(** [s.toUpperCase()] on ASCII text. *)
Fixpoint toUpperCase (s : string) : string :=
  match s with
  | EmptyString => EmptyString
  | String c s' => String (upper c) (toUpperCase s')
  end.

(** [haystack.includes(needle)] *)
Fixpoint includes (haystack needle : string) : bool :=
  startsWith haystack needle
  || match haystack with
     | EmptyString => false
     | String _ h' => includes h' needle
     end.

Definition LF : ascii := Ascii.ascii_of_nat 10.
Definition TAB : ascii := Ascii.ascii_of_nat 9.
Definition DQUOTE : string := String (Ascii.ascii_of_nat 34) EmptyString.

End Str.

(** [[...new Set(xs)]]: the distinct elements in order of first occurrence. *)
Fixpoint Set_values (seen xs : list string) : list string :=
  match xs with
  | [] => []
  | x :: xs' =>
      if existsb (String.eqb x) seen then Set_values seen xs'
      else x :: Set_values (x :: seen) xs'
  end.

(** ** Run-time values *)

Inductive JsValue : Type :=
| JUndefined
| JNull
| JBoolean (b : bool)
| JNumber (n : Z)
| JString (s : string)
| JArray (items : list JsValue)
| JObject (props : list (string * JsValue)).

(** The environment handed over by the release orchestrator:
    [Record<string, string>]; the parameter itself is optional. *)
Abbreviation Env := (gmap string string).

(** Thrown values.  [SemanticReleaseError] is the class of
    [@semantic-release/error], [AggregateError] the one of the
    [aggregate-error] package.  [JsError] stands for whatever a collaborator
    ([git], the REST client, lodash, git-url-parse) throws; [TypeError] is the
    engine's own error for a property read on [null] or [undefined].
    [String_ e] denotes the text [String(e)], which the sources store in the
    [details] of the errors they wrap. *)
Inductive Exn : Type :=
| JsError (message : string)
| TypeError
| SemanticReleaseError (message code : string) (details : option Details)
| AggregateError (errors : list Exn)
with Details : Type :=
| Text (s : string)
| String_ (error : Exn).

(** The outcome of a call: a value, or a thrown error. *)
Inductive Completion (A : Type) : Type :=
| Returns (a : A)
| Throws (e : Exn).
Arguments Returns {A} a.
Arguments Throws {A} e.

#[export] Instance Completion_ret : MRet Completion := @Returns.
#[export] Instance Completion_bind : MBind Completion := fun A B f m =>
  match m with
  | Returns a => f a
  | Throws e => Throws e
  end.

Module Js.

(** Truthiness: [Boolean(v)]. *)
Definition truthy (v : JsValue) : bool :=
  match v with
  | JUndefined | JNull => false
  | JBoolean b => b
  | JNumber n => negb (n =? 0)%Z
  | JString s => negb (Str.is_empty s)
  | JArray _ | JObject _ => true
  end.

(** [v ?? d] *)
Definition nullish (v : JsValue) : bool :=
  match v with JUndefined | JNull => true | _ => false end.

Definition coalesce (v d : JsValue) : JsValue := if nullish v then d else v.

(** lodash [isString], [isArray], [isBoolean] on plain values. *)
Definition isString (v : JsValue) : bool :=
  match v with JString _ => true | _ => false end.
Definition isArray (v : JsValue) : bool :=
  match v with JArray _ => true | _ => false end.
Definition isBoolean (v : JsValue) : bool :=
  match v with JBoolean _ => true | _ => false end.

Fixpoint lookup (key : string) (props : list (string * JsValue)) : JsValue :=
  match props with
  | [] => JUndefined
  | (k, v) :: rest => if String.eqb k key then v else lookup key rest
  end.

(** [v.key] for a key that no prototype defines ([from], [to]): a
    [TypeError] on [null] and [undefined], the own property of an object,
    [undefined] on everything else. *)
Definition get (v : JsValue) (key : string) : Completion JsValue :=
  match v with
  | JUndefined | JNull => Throws TypeError
  | JObject props => Returns (lookup key props)
  | _ => Returns JUndefined
  end.

End Js.

Infix "??" := Js.coalesce (at level 61, left associativity).

(** [env?.NAME] *)
Definition optional_get (env : option Env) (name : string) : JsValue :=
  match env with
  | None => JUndefined
  | Some vars => match vars !! name with
                 | Some value => JString value
                 | None => JUndefined
                 end
  end.
Infix "?." := optional_get (at level 25, left associativity).

(** ** lib/models/config.ts *)

Inductive Platform : Type :=
| BITBUCKET
| BITBUCKET_CLOUD
| GITEA
| GITHUB
| GITLAB
| NULL.

(** The string each member of the enum stands for. *)
Definition Platform_value (platform : Platform) : string :=
  match platform with
  | BITBUCKET => "bitbucket"
  | BITBUCKET_CLOUD => "bitbucket-cloud"
  | GITEA => "gitea"
  | GITHUB => "github"
  | GITLAB => "gitlab"
  | NULL => EmptyString
  end.

(** [Object.values(Platform)], in declaration order. *)
Definition Object_values_Platform : list Platform :=
  [BITBUCKET; BITBUCKET_CLOUD; GITEA; GITHUB; GITLAB; NULL].

Definition Platform_eqb (a b : Platform) : bool :=
  String.eqb (Platform_value a) (Platform_value b).

Module ReleaseCandidate.
Record t : Type := { from : string; to : string }.
End ReleaseCandidate.

(** [RequestsConfig] as the interface declares it. *)
Module Typed.
Record RequestsConfig : Type := {
  debug : bool;
  dryRun : bool;
  repositoryUrl : string;
  apiPathPrefix : string;
  baseUrl : string;
  platform : Platform;
  token : string;
  candidates : list ReleaseCandidate.t;
  title : string;
  commit : string;
  assets : list string;
}.
End Typed.

(** [RequestsConfig] and [Partial<RequestsConfig>] as they exist at run time:
    every property holds some value, [undefined] when it is absent. *)
Module Raw.
Record RequestsConfig : Type := {
  apiPathPrefix : JsValue;
  assets : JsValue;
  baseUrl : JsValue;
  candidates : JsValue;
  commit : JsValue;
  debug : JsValue;
  dryRun : JsValue;
  platform : JsValue;
  repositoryUrl : JsValue;
  title : JsValue;
  token : JsValue;
}.

(** The empty options object [{}]. *)
Definition empty : RequestsConfig :=
  {| apiPathPrefix := JUndefined; assets := JUndefined; baseUrl := JUndefined;
     candidates := JUndefined; commit := JUndefined; debug := JUndefined;
     dryRun := JUndefined; platform := JUndefined; repositoryUrl := JUndefined;
     title := JUndefined; token := JUndefined |}.
End Raw.

(** [keyof RequestsConfig] *)
Module Key.
Inductive t : Type :=
| apiPathPrefix | assets | baseUrl | candidates | commit | debug | dryRun
| platform | repositoryUrl | title | token.

Definition name (key : t) : string :=
  match key with
  | apiPathPrefix => "apiPathPrefix"
  | assets => "assets"
  | baseUrl => "baseUrl"
  | candidates => "candidates"
  | commit => "commit"
  | debug => "debug"
  | dryRun => "dryRun"
  | platform => "platform"
  | repositoryUrl => "repositoryUrl"
  | title => "title"
  | token => "token"
  end.
End Key.

(** [Object.entries(config)] for a configuration built by [ensureDefault]: the
    eleven properties in the order of its object literal. *)
Definition Object_entries (config : Raw.RequestsConfig) : list (Key.t * JsValue) :=
  [ (Key.apiPathPrefix, Raw.apiPathPrefix config);
    (Key.assets, Raw.assets config);
    (Key.baseUrl, Raw.baseUrl config);
    (Key.candidates, Raw.candidates config);
    (Key.commit, Raw.commit config);
    (Key.debug, Raw.debug config);
    (Key.dryRun, Raw.dryRun config);
    (Key.platform, Raw.platform config);
    (Key.repositoryUrl, Raw.repositoryUrl config);
    (Key.title, Raw.title config);
    (Key.token, Raw.token config) ].

Definition defaultTitle : string := "Release candidate branch ${ from }".

Definition defaultCommit : string :=
  "chore(release): release changes for v${ nextRelease.version } [skip ci]".

(** Monadic helpers for callbacks that may throw. *)
Fixpoint filterM {A : Type} (f : A → Completion bool) (l : list A) : Completion (list A) :=
  match l with
  | [] => Returns []
  | x :: l' =>
      keep ← f x;
      rest ← filterM f l';
      Returns (if keep : bool then x :: rest else rest)
  end.

Fixpoint reduceM {A B : Type} (f : B → A → Completion B) (l : list A) (init : B) : Completion B :=
  match l with
  | [] => Returns init
  | x :: l' => acc ← f init x; reduceM f l' acc
  end.

(** ** The release context ([Context] of lib/requests.ts) *)

Module LastRelease.
Record t : Type := {
  channels : list string;
  gitHead : string;
  gitTag : string;
  name : string;
  version : string;
}.
End LastRelease.

Module NextRelease.
Record t : Type := {
  channel : string;
  gitHead : string;
  gitTag : string;
  name : string;
  notes : option string;
  type : string;
  version : string;
}.
End NextRelease.

(** [context.logger] is an effect, see [Call] below. *)
Module Context.
Record t : Type := {
  branch_name : string;
  cwd : option string;
  env : option Env;
  lastRelease : LastRelease.t;
  nextRelease : NextRelease.t;
}.
End Context.

(** [Metadata] of lib/pull-request.ts, as lib/requests.ts fills it. *)
Module Metadata.
Record t : Type := {
  body : string;
  from : string;
  name : string;
  owner : string;
  title : string;
  to : string;
}.
End Metadata.

(** The two objects handed to lodash's compiled templates. *)
Inductive TemplateData : Type :=
| CommitData (branch : string) (lastRelease : LastRelease.t) (nextRelease : NextRelease.t)
| RequestData (from : string) (lastRelease : LastRelease.t) (nextRelease : NextRelease.t)
    (to : string).

(** ** Programs with external calls

    [Execa] is [execaSync(file, args, { cwd, env })]; [CreatePR] is the awaited
    [createPR(url, platform, token, body)] of lib/pull-request.ts; the two
    logger calls are [context.logger.log] and [context.logger.error]. *)

Inductive Call : Type :=
| Execa (file : string) (args : list string) (cwd : option string) (env : option Env)
| CreatePR (url : string) (platform : Platform) (token : string) (body : Metadata.t)
| LoggerLog (data : string)
| LoggerError (data : string) (error : Exn).

(** What the outside answers: the standard output of a command (empty where
    nothing is read), or the error it raises. *)
Inductive Reply : Type :=
| Resolved (stdout : string)
| Rejected (error : Exn).

Inductive Prog (A : Type) : Type :=
| Ret (a : A)
| Throw (e : Exn)
| Vis (call : Call) (k : Reply → Prog A).
Arguments Ret {A} a.
Arguments Throw {A} e.
Arguments Vis {A} call k.

Fixpoint bind {A B : Type} (p : Prog A) (f : A → Prog B) : Prog B :=
  match p with
  | Ret a => f a
  | Throw e => Throw e
  | Vis call k => Vis call (λ reply, bind (k reply) f)
  end.

#[export] Instance Prog_ret : MRet Prog := @Ret.
#[export] Instance Prog_bind : MBind Prog := λ A B f p, bind p f.

(** [try { p } catch (error) { handler(error) }] *)
Fixpoint try_catch {A : Type} (p : Prog A) (handler : Exn → Prog A) : Prog A :=
  match p with
  | Ret a => Ret a
  | Throw e => handler e
  | Vis call k => Vis call (λ reply, try_catch (k reply) handler)
  end.

(** A pure computation inside a program. *)
Definition lift {A : Type} (c : Completion A) : Prog A :=
  match c with
  | Returns a => Ret a
  | Throws e => Throw e
  end.

(** A call of an [async] function whose promise is dropped: its effects take
    place, its completion, value or rejection, never reaches the caller. *)
Definition unawaited {A : Type} (p : Prog A) : Prog unit :=
  try_catch (p;; Ret tt) (λ _, Ret tt).

(** What happened during a run: every call with its answer, in order. *)
Abbreviation Trace := (list (Call * Reply)).

(** The outside world: it answers a call knowing all that happened before. *)
Abbreviation World := (Trace → Call → Reply).

Fixpoint run {A : Type} (world : World) (past : Trace) (p : Prog A)
  : Trace * Completion A :=
  match p with
  | Ret a => ([], Returns a)
  | Throw e => ([], Throws e)
  | Vis call k =>
      let reply := world past call in
      let '(trace, completion) := run world (past ++ [(call, reply)]) (k reply) in
      ((call, reply) :: trace, completion)
  end.

Definition trace_of {A : Type} (world : World) (p : Prog A) : Trace := (run world [] p).1.
Definition completion_of {A : Type} (world : World) (p : Prog A) : Completion A :=
  (run world [] p).2.

(** Observations on traces. *)
Definition is_git (call : Call) : bool :=
  match call with Execa file _ _ _ => String.eqb file "git" | _ => false end.

Definition is_git_command (command : string) (call : Call) : bool :=
  match call with
  | Execa file (first :: _) _ _ => String.eqb file "git" && String.eqb first command
  | _ => false
  end.

Definition is_createPR (call : Call) : bool :=
  match call with CreatePR _ _ _ _ => true | _ => false end.

Definition rejected (reply : Reply) : bool :=
  match reply with Rejected _ => true | Resolved _ => false end.

Definition passes_flag (flag : string) (call : Call) : bool :=
  match call with
  | Execa _ args _ _ => existsb (String.eqb flag) args
  | _ => false
  end.

Definition git_failure (trace : Trace) : bool :=
  existsb (λ entry, is_git entry.1 && rejected entry.2) trace.

Definition createPR_failure (trace : Trace) : bool :=
  existsb (λ entry, is_createPR entry.1 && rejected entry.2) trace.

Definition calls (p : Call → bool) (trace : Trace) : bool :=
  existsb (λ entry, p entry.1) trace.

(** ** lib/git.ts *)

Definition execaSync (file : string) (args : list string) (cwd : option string)
  (env : option Env) : Prog string :=
  Vis (Execa file args cwd env)
    (λ reply, match reply with
              | Resolved stdout => Ret stdout
              | Rejected error => Throw error
              end).

(** What [ls] makes of the output of [git ls-remote --heads]. *)
Definition ls_branches (stdout : string) : list string :=
  let branches :=
    List.map (λ branch, Str.replace branch "refs/heads/" EmptyString)
      (List.filter (λ branch, Str.startsWith branch "refs/heads/")
         (List.concat
            (List.map (λ branch, Str.split branch Str.TAB) (Str.split stdout Str.LF)))) in
  Set_values [] branches.

Definition ls (remote : string) (cwd : option string) (env : option Env)
  : Prog (list string) :=
  stdout ← execaSync "git" ["ls-remote"; "--heads"; remote] cwd env;
  Ret (ls_branches stdout).

Definition checkout (branch : string) (cwd : option string) (env : option Env)
  : Prog unit :=
  execaSync "git" ["checkout"; "-b"; branch] cwd env;; Ret tt.

Definition fetch (remote : string) (cwd : option string) (env : option Env)
  : Prog unit :=
  execaSync "git" ["fetch"; remote] cwd env;; Ret tt.

Definition add (assets : list string) (cwd : option string) (env : option Env)
  : Prog unit :=
  execaSync "git" (["add"; "--force"; "--ignore-errors"] ++ assets) cwd env;; Ret tt.

Definition commit (message : string) (cwd : option string) (env : option Env)
  : Prog unit :=
  execaSync "git" ["commit"; "-m"; message] cwd env;; Ret tt.

Definition push (remote branch : string) (dryRun : bool) (cwd : option string)
  (env : option Env) : Prog unit :=
  let args := ["push"; remote; "HEAD:" +:+ branch] in
  let args := if dryRun then args ++ ["--dry-run"] else args in
  execaSync "git" args cwd env;; Ret tt.

(** [await createPR(url, platform, token, body)]: lib/pull-request.ts is
    reached only through this call. *)
Definition createPR (url : string) (platform : Platform) (token : string)
  (body : Metadata.t) : Prog unit :=
  Vis (CreatePR url platform token body)
    (λ reply, match reply with
              | Resolved _ => Ret tt
              | Rejected error => Throw error
              end).

Definition logger_log (data : string) : Prog unit :=
  Vis (LoggerLog data) (λ _, Ret tt).

Definition logger_error (data : string) (error : Exn) : Prog unit :=
  Vis (LoggerError data error) (λ _, Ret tt).

(** ** The configuration at its declared type

    TypeScript's types are erased: the object that [verifyConditions] returns
    is the one lib/requests.ts reads at type [RequestsConfig].
    [as_RequestsConfig] is that reading. *)

Definition as_string (v : JsValue) : string :=
  match v with JString s => s | _ => EmptyString end.

Definition as_boolean (v : JsValue) : bool := Js.truthy v.

Definition as_array (v : JsValue) : list JsValue :=
  match v with JArray items => items | _ => [] end.

Definition as_Platform (v : JsValue) : Platform :=
  default NULL
    (List.find (λ platform, String.eqb (Platform_value platform) (as_string v))
       Object_values_Platform).

Definition as_ReleaseCandidate (v : JsValue) : ReleaseCandidate.t :=
  match v with
  | JObject props =>
      {| ReleaseCandidate.from := as_string (Js.lookup "from" props);
         ReleaseCandidate.to := as_string (Js.lookup "to" props) |}
  | _ => {| ReleaseCandidate.from := EmptyString; ReleaseCandidate.to := EmptyString |}
  end.

Definition as_RequestsConfig (config : Raw.RequestsConfig) : Typed.RequestsConfig :=
  {| Typed.debug := as_boolean (Raw.debug config);
     Typed.dryRun := as_boolean (Raw.dryRun config);
     Typed.repositoryUrl := as_string (Raw.repositoryUrl config);
     Typed.apiPathPrefix := as_string (Raw.apiPathPrefix config);
     Typed.baseUrl := as_string (Raw.baseUrl config);
     Typed.platform := as_Platform (Raw.platform config);
     Typed.token := as_string (Raw.token config);
     Typed.candidates := as_ReleaseCandidate <$> as_array (Raw.candidates config);
     Typed.title := as_string (Raw.title config);
     Typed.commit := as_string (Raw.commit config);
     Typed.assets := as_string <$> as_array (Raw.assets config) |}.

(** The other direction, for [JSON.stringify] of typed values. *)
Definition of_ReleaseCandidate (candidate : ReleaseCandidate.t) : JsValue :=
  JObject [("from", JString (ReleaseCandidate.from candidate));
           ("to", JString (ReleaseCandidate.to candidate))].

(** ** Test doubles

    Stand-ins for the collaborators, in the manner of the mocks of the test
    suite, to run the code on concrete inputs. *)
Module Stub.

Definition join (sep : string) (parts : list string) : string :=
  match parts with
  | [] => EmptyString
  | first :: rest => fold_left (λ acc part, acc +:+ sep +:+ part) rest first
  end.

(** [JSON.stringify] inside a template literal; exact on text that needs no
    escaping. *)
Fixpoint JSON_stringify (v : JsValue) : string :=
  match v with
  | JUndefined => "undefined"
  | JNull => "null"
  | JBoolean b => if b then "true" else "false"
  | JNumber n => pretty n
  | JString s => Str.DQUOTE +:+ s +:+ Str.DQUOTE
  | JArray items =>
      "[" +:+ join ","
                (List.map (λ item, if Js.nullish item then "null" else JSON_stringify item)
                   items)
      +:+ "]"
  | JObject props =>
      "{" +:+ join ","
                ((fix members (props : list (string * JsValue)) : list string :=
                    match props with
                    | [] => []
                    | (key, JUndefined) :: rest => members rest
                    | (key, value) :: rest =>
                        (Str.DQUOTE +:+ key +:+ Str.DQUOTE +:+ ":" +:+ JSON_stringify value)
                        :: members rest
                    end) props)
      +:+ "}"
  end.

(** [subject.match(pattern)] for a pattern without metacharacters: the
    pattern occurs in the subject. *)
Definition String_match (subject pattern : string) : bool :=
  Str.includes subject pattern.

(** lodash's [template] on text without delimiters: the text itself. *)
Definition template (text : string) (data : TemplateData) : Completion string :=
  Returns text.

Record GitUrl : Type := { owner : string; name : string }.

(** git-url-parse at
    [git@github.com:kilianpaquier/semantic-release-requests.git]. *)
Definition parse (url : string) : Completion GitUrl :=
  Returns {| owner := "kilianpaquier"; name := "semantic-release-requests" |}.

(** lib/auth-modificator.ts: some remote URL carrying the token. *)
Definition authModificator (url : GitUrl) (platform : Platform) (token : string)
  : Completion string :=
  Returns ("https://" +:+ token +:+ "@github.com/" +:+ owner url +:+ "/" +:+ name url
           +:+ ".git").

Definition instanceof_AggregateError (error : Exn) : bool := false.

(** Worlds. *)
Definition succeeds : World := λ _ _, Resolved EmptyString.

Definition fails_on (p : Call → bool) : World :=
  λ _ call, if p call then Rejected (JsError "an error message") else Resolved EmptyString.

Definition lists (stdout : string) : World :=
  λ _ call, if is_git_command "ls-remote" call then Resolved stdout
            else Resolved EmptyString.

(** [getContext] of the test suite. *)
Definition getContext (name : string) : Context.t :=
  {| Context.branch_name := name;
     Context.cwd := None;
     Context.env := None;
     Context.lastRelease :=
       {| LastRelease.channels := []; LastRelease.gitHead := EmptyString;
          LastRelease.gitTag := "v0.0.0"; LastRelease.name := "last_release";
          LastRelease.version := "v0.0.0" |};
     Context.nextRelease :=
       {| NextRelease.channel := EmptyString; NextRelease.gitHead := EmptyString;
          NextRelease.gitTag := "v0.0.0"; NextRelease.name := "next_release";
          NextRelease.notes := None; NextRelease.type := "major";
          NextRelease.version := "v0.0.0" |} |}.

Definition config : Typed.RequestsConfig :=
  {| Typed.debug := false;
     Typed.dryRun := false;
     Typed.repositoryUrl := "git@github.com:kilianpaquier/semantic-release-requests.git";
     Typed.apiPathPrefix := EmptyString;
     Typed.baseUrl := "https://example.com";
     Typed.platform := GITHUB;
     Typed.token := "some token";
     Typed.candidates := [{| ReleaseCandidate.from := "main"; ReleaseCandidate.to := "develop" |}];
     Typed.title := "Release candidate";
     Typed.commit := "chore(release): release changes [skip ci]";
     Typed.assets := ["CHANGELOG.md"] |}.

Definition with_dryRun (config : Typed.RequestsConfig) : Typed.RequestsConfig :=
  {| Typed.debug := Typed.debug config;
     Typed.dryRun := true;
     Typed.repositoryUrl := Typed.repositoryUrl config;
     Typed.apiPathPrefix := Typed.apiPathPrefix config;
     Typed.baseUrl := Typed.baseUrl config;
     Typed.platform := Typed.platform config;
     Typed.token := Typed.token config;
     Typed.candidates := Typed.candidates config;
     Typed.title := Typed.title config;
     Typed.commit := Typed.commit config;
     Typed.assets := Typed.assets config |}.

Definition with_assets (assets : list string) (config : Typed.RequestsConfig)
  : Typed.RequestsConfig :=
  {| Typed.debug := Typed.debug config;
     Typed.dryRun := Typed.dryRun config;
     Typed.repositoryUrl := Typed.repositoryUrl config;
     Typed.apiPathPrefix := Typed.apiPathPrefix config;
     Typed.baseUrl := Typed.baseUrl config;
     Typed.platform := Typed.platform config;
     Typed.token := Typed.token config;
     Typed.candidates := Typed.candidates config;
     Typed.title := Typed.title config;
     Typed.commit := Typed.commit config;
     Typed.assets := assets |}.


(** The output of [git ls-remote --heads] for a remote with the branches
    [main], [develop] and [staging]. *)
Definition heads : string :=
  "1f0c3a7" +:+ String Str.TAB "refs/heads/main" +:+ String Str.LF EmptyString
  +:+ "9be2d41" +:+ String Str.TAB "refs/heads/develop" +:+ String Str.LF EmptyString
  +:+ "c47a9e0" +:+ String Str.TAB "refs/heads/staging".

(** Plugin options as the release configuration gives them. *)
Definition options_apiPathPrefix : Raw.RequestsConfig :=
  {| Raw.apiPathPrefix := JString "/api/v3"; Raw.assets := JUndefined;
     Raw.baseUrl := JUndefined; Raw.candidates := JUndefined; Raw.commit := JUndefined;
     Raw.debug := JUndefined; Raw.dryRun := JUndefined; Raw.platform := JUndefined;
     Raw.repositoryUrl := JUndefined; Raw.title := JUndefined; Raw.token := JUndefined |}.

(** The options of [validConfig] in the test suite. *)
Definition options_github : Raw.RequestsConfig :=
  {| Raw.apiPathPrefix := JUndefined; Raw.assets := JUndefined;
     Raw.baseUrl := JString "https://example.com"; Raw.candidates := JUndefined;
     Raw.commit := JUndefined; Raw.debug := JUndefined; Raw.dryRun := JUndefined;
     Raw.platform := JString "github"; Raw.repositoryUrl := JUndefined;
     Raw.title := JUndefined; Raw.token := JUndefined |}.

(** The options of the test [should be fine with base url]. *)
Definition options_complete : Raw.RequestsConfig :=
  {| Raw.apiPathPrefix := JUndefined;
     Raw.assets := JArray [JString "**/*.js"];
     Raw.baseUrl := JString "https://example.com";
     Raw.candidates :=
       JArray [JObject [("from", JString "main"); ("to", JString "develop")];
               JObject [("from", JString "main"); ("to", JString "staging")];
               JObject [("from", JString "v[0-9]+(.[0-9]+)?"); ("to", JString "develop")]];
     Raw.commit := JUndefined; Raw.debug := JUndefined; Raw.dryRun := JUndefined;
     Raw.platform := JString "github";
     Raw.repositoryUrl := JString "some repository url";
     Raw.title := JUndefined; Raw.token := JUndefined |}.

(** Options for two fan-out requests, from [main] to [develop] and to
    [staging]. *)
Definition options_fanout : Raw.RequestsConfig :=
  {| Raw.apiPathPrefix := JUndefined;
     Raw.assets := JUndefined;
     Raw.baseUrl := JString "https://example.com";
     Raw.candidates :=
       JArray [JObject [("from", JString "main"); ("to", JString "develop")];
               JObject [("from", JString "main"); ("to", JString "staging")]];
     Raw.commit := JUndefined; Raw.debug := JUndefined; Raw.dryRun := JUndefined;
     Raw.platform := JString "github";
     Raw.repositoryUrl := JString "git@github.com:kilianpaquier/semantic-release-requests.git";
     Raw.title := JString "Release candidate"; Raw.token := JUndefined |}.

Definition env_token : option Env := Some {[ "GITHUB_TOKEN" := "some token" ]}.

(** A release of [main] with a token in the environment. *)
Definition context_main : Context.t :=
  {| Context.branch_name := "main";
     Context.cwd := None;
     Context.env := env_token;
     Context.lastRelease := Context.lastRelease (getContext "main");
     Context.nextRelease := Context.nextRelease (getContext "main") |}.

(** A world whose remote has the branches of [heads] and whose hosting
    platform refuses every request. *)
Definition refuses_requests : World :=
  λ _ call,
    if is_createPR call then Rejected (JsError "an error message")
    else if is_git_command "ls-remote" call then Resolved heads
    else Resolved EmptyString.

(** The heads whose listing is [heads]. *)
Definition head_list : list (string * string) :=
  [("1f0c3a7", "main"); ("9be2d41", "develop"); ("c47a9e0", "staging")].

(** A title template that names a variable the data does not have. *)
Definition template_fails (text : string) (data : TemplateData) : Completion string :=
  Throws (JsError "version is not defined").

(** The options of the test [should throw an invalid platform with base
    url]. *)
Definition options_baseUrl : Raw.RequestsConfig :=
  {| Raw.apiPathPrefix := JUndefined; Raw.assets := JUndefined;
     Raw.baseUrl := JString "https://example.com"; Raw.candidates := JUndefined;
     Raw.commit := JUndefined; Raw.debug := JUndefined; Raw.dryRun := JUndefined;
     Raw.platform := JUndefined; Raw.repositoryUrl := JUndefined;
     Raw.title := JUndefined; Raw.token := JUndefined |}.

(** Options whose candidates hold a [null] entry. *)
Definition options_null_candidate : Raw.RequestsConfig :=
  {| Raw.apiPathPrefix := JUndefined; Raw.assets := JUndefined;
     Raw.baseUrl := JUndefined; Raw.candidates := JArray [JNull];
     Raw.commit := JUndefined; Raw.debug := JUndefined; Raw.dryRun := JUndefined;
     Raw.platform := JUndefined; Raw.repositoryUrl := JUndefined;
     Raw.title := JUndefined; Raw.token := JUndefined |}.

(** [options_fanout] as the orchestrator passes them in dry-run mode. *)
Definition options_fanout_dryRun : Raw.RequestsConfig :=
  {| Raw.apiPathPrefix := Raw.apiPathPrefix options_fanout;
     Raw.assets := Raw.assets options_fanout;
     Raw.baseUrl := Raw.baseUrl options_fanout;
     Raw.candidates := Raw.candidates options_fanout;
     Raw.commit := Raw.commit options_fanout;
     Raw.debug := Raw.debug options_fanout;
     Raw.dryRun := JBoolean true;
     Raw.platform := Raw.platform options_fanout;
     Raw.repositoryUrl := Raw.repositoryUrl options_fanout;
     Raw.title := Raw.title options_fanout;
     Raw.token := Raw.token options_fanout |}.

(** An environment that announces a GitHub instance and a token. *)
Definition env_github : option Env :=
  Some {[ "GITHUB_URL" := "https://github.example.com"; "GH_TOKEN" := "some token" ]}.

End Stub.

Section Plugin.

(** Collaborators whose code lives outside the repository. *)

(** The text that [JSON.stringify(v)] contributes to a template literal. *)
Context (JSON_stringify : JsValue → string).

(** ** lib/error.ts *)

Definition linkify (section : string) : string :=
  "https://github.com/kilianpaquier/semantic-release-requests/blob/master/README.md#"
  +:+ section.

Record ConfigError : Type := { message : string; details : option string }.

Definition configErrors (key : Key.t) (value : JsValue) : ConfigError :=
  let provided := " Provided value is " +:+ JSON_stringify value +:+ "." in
  let link := "](" +:+ linkify "configuration" +:+ ")" in
  match key with
  | Key.apiPathPrefix =>
      {| details := Some ("[API Path Prefix" +:+ link +:+ " must be a string." +:+ provided);
         message := "Invalid 'apiPathPrefix' configuration." |}
  | Key.assets =>
      {| details := Some ("[Assets" +:+ link +:+ " must be a valid list of strings." +:+ provided);
         message := "Invalid 'assets' configuration." |}
  | Key.baseUrl =>
      {| details := Some ("[Base URL" +:+ link +:+ " must be a non empty string." +:+ provided);
         message := "Invalid 'baseUrl' configuration." |}
  | Key.candidates =>
      {| details := Some ("[Candidates" +:+ link
                          +:+ " must be a valid array of release candidates ({ from: "
                          +:+ Str.DQUOTE +:+ "..." +:+ Str.DQUOTE +:+ ", to: "
                          +:+ Str.DQUOTE +:+ "..." +:+ Str.DQUOTE +:+ " })." +:+ provided);
         message := "Invalid 'candidates' configuration." |}
  | Key.commit =>
      {| details := Some ("[Commit" +:+ link +:+ " must be a string." +:+ provided);
         message := "Invalid 'commit' configuration." |}
  | Key.debug =>
      {| details := None;
         message := "Invalid 'debug' configuration (coming from semantic-release options)." |}
  | Key.dryRun =>
      {| details := None;
         message := "Invalid 'dryRun' configuration (coming from semantic-release options)." |}
  | Key.platform =>
      {| details := Some ("[Platform" +:+ link
                          +:+ " must be one of 'bitbucket', 'bitbucket-cloud', 'gitea', 'github', 'gitlab'."
                          +:+ provided);
         message := "Invalid 'platform' configuration." |}
  | Key.repositoryUrl =>
      {| details := None;
         message := "Invalid 'repositoryUrl' configuration (coming from semantic-release options)." |}
  | Key.title =>
      {| details := Some ("[Title" +:+ link +:+ " must be a non empty string." +:+ provided);
         message := "Invalid 'title' configuration." |}
  | Key.token =>
      {| details := Some ("[Token" +:+ link +:+ " must be a non empty string.");
         message := "Invalid 'token' configuration." |}
  end.

Definition getConfigError (key : Key.t) (value : JsValue) : Exn :=
  let code := "EINVALID" +:+ Str.toUpperCase (Key.name key) in
  let error := configErrors key value in
  SemanticReleaseError (message error) code (Text <$> details error).

(** ** lib/verify-config.ts *)

(** [value] differs from the empty string; [verifyConfig] never calls
    it on anything but a string. *)
Definition stringNotEmpty (value : JsValue) : bool :=
  match value with
  | JString s => negb (Str.is_empty s)
  | _ => true
  end.

(** The callback of [validCandidatesArray]; reading [target.from] throws
    when the entry is [null] or [undefined]. *)
Definition validCandidate (target : JsValue) : Completion bool :=
  from ← Js.get target "from";
  if Js.isString from && stringNotEmpty from then
    to ← Js.get target "to";
    Returns (Js.isString to && stringNotEmpty to)
  else Returns false.

(** [candidates.filter(...).length === candidates.length]; [filter] only
    exists on arrays. *)
Definition validCandidatesArray (candidates : JsValue) : Completion bool :=
  match candidates with
  | JArray items =>
      kept ← filterM validCandidate items;
      Returns (length kept =? length items)%nat
  | _ => Throws TypeError
  end.

(** [Boolean(Object.values(Platform).filter(...).find(...))]: [find] yields
    the matching member, whose string is then tested for truthiness. *)
Definition validPlatform (stringPlatform : JsValue) : bool :=
  match
    List.find
      (λ platform, match stringPlatform with
                   | JString s => String.eqb (Platform_value platform) s
                   | _ => false
                   end)
      (List.filter (λ platform, negb (Platform_eqb platform NULL)) Object_values_Platform)
  with
  | Some platform => Js.truthy (JString (Platform_value platform))
  | None => false
  end.

Definition validStringArray (array : JsValue) : Completion bool :=
  match array with
  | JArray items =>
      Returns (length (List.filter (λ str, Js.isString str && stringNotEmpty str) items)
               =? length items)%nat
  | _ => Throws TypeError
  end.

Definition getURLs (config : Raw.RequestsConfig) (env : option Env)
  : Platform * JsValue * JsValue :=
  if Js.truthy (Raw.baseUrl config) then
    (NULL, Raw.baseUrl config, Raw.apiPathPrefix config ?? JString EmptyString)
  else if Js.truthy (env ?. "BITBUCKET_URL") then
    (BITBUCKET, env ?. "BITBUCKET_URL", Raw.apiPathPrefix config ?? JString "/rest/api/1.0")
  else if Js.truthy (env ?. "BITBUCKET_CLOUD_URL") then
    (BITBUCKET_CLOUD, env ?. "BITBUCKET_CLOUD_URL", Raw.apiPathPrefix config ?? JString "/2.0")
  else if Js.truthy (env ?. "GITEA_URL") then
    (GITEA, env ?. "GITEA_URL", Raw.apiPathPrefix config ?? JString "/api/v1")
  else
    let githubUrl := env ?. "GH_URL" ?? env ?. "GITHUB_URL" ?? env ?. "GITHUB_API_URL" in
    if Js.truthy githubUrl then
      (GITHUB, githubUrl, Raw.apiPathPrefix config ?? JString EmptyString)
    else
      let gitlabUrl := env ?. "GL_URL" ?? env ?. "GITLAB_URL" ?? env ?. "CI_SERVER_URL" in
      if Js.truthy gitlabUrl then
        (GITLAB, gitlabUrl, Raw.apiPathPrefix config ?? JString "/api/v4")
      else (NULL, JString EmptyString, JString EmptyString).

Definition ensureDefault (config : Raw.RequestsConfig) (env : option Env)
  : Raw.RequestsConfig :=
  let '(platform, baseUrl, apiPathPrefix) := getURLs config env in
  {| Raw.apiPathPrefix := apiPathPrefix;
     Raw.assets := Raw.assets config ?? JArray [];
     Raw.baseUrl := baseUrl;
     Raw.candidates := Raw.candidates config ?? JArray [];
     Raw.commit := Raw.commit config ?? JString defaultCommit;
     Raw.debug := Raw.debug config ?? JBoolean false;
     Raw.dryRun := Raw.dryRun config ?? JBoolean false;
     Raw.platform := Raw.platform config ?? JString (Platform_value platform);
     Raw.repositoryUrl := Raw.repositoryUrl config ?? JString EmptyString;
     Raw.title := Raw.title config ?? JString defaultTitle;
     Raw.token :=
       env ?. "BB_TOKEN" ?? env ?. "BITBUCKET_TOKEN" ?? env ?. "GITEA_TOKEN"
       ?? env ?. "GH_TOKEN" ?? env ?. "GITHUB_TOKEN" ?? env ?. "GL_TOKEN"
       ?? env ?. "GITLAB_TOKEN" ?? JString EmptyString |}.

Definition pure (validation : JsValue → bool) (value : JsValue) : Completion bool :=
  Returns (validation value).

Definition validators (option : Key.t) : list (JsValue → Completion bool) :=
  match option with
  | Key.apiPathPrefix => [pure Js.isString]
  | Key.assets => [pure Js.isArray; validStringArray]
  | Key.baseUrl => [pure Js.isString; pure stringNotEmpty]
  | Key.candidates => [pure Js.isArray; validCandidatesArray]
  | Key.commit => [pure Js.isString; pure stringNotEmpty]
  | Key.debug => [pure Js.isBoolean]
  | Key.dryRun => [pure Js.isBoolean]
  | Key.platform => [pure Js.isString; pure validPlatform]
  | Key.repositoryUrl => [pure Js.isString; pure stringNotEmpty]
  | Key.title => [pure Js.isString; pure stringNotEmpty]
  | Key.token => [pure Js.isString; pure stringNotEmpty]
  end.

(** The body of the reducer: the first validation that fails appends the
    option's error and ends the iteration over its validations. *)
Fixpoint validate (validations : list (JsValue → Completion bool))
  (agg : list Exn) (option : Key.t) (value : JsValue) : Completion (list Exn) :=
  match validations with
  | [] => Returns agg
  | validation :: rest =>
      ok ← validation value;
      if ok : bool then validate rest agg option value
      else Returns (agg ++ [getConfigError option value])
  end.

Definition verifyConfig (config : Raw.RequestsConfig) : Completion unit :=
  errors ← reduceM (λ agg '(option, value), validate (validators option) agg option value)
             (Object_entries config) [];
  if (0 <? length errors)%nat then Throws (AggregateError errors) else Returns tt.

(** ** lib/requests.ts *)

(** More collaborators.  [String_match subject pattern] is the truthiness
    of [subject.match(pattern)], the pattern being a regular expression
    given as a string and taken to be well formed; [template text data] is
    lodash's [template(text)(data)]; [parse] is git-url-parse;
    [authModificator] is lib/auth-modificator.ts.  The last three may throw. *)
Context (String_match : string → string → bool).
Context (template : string → TemplateData → Completion string).
Context (GitUrl : Type) (parse : string → Completion GitUrl).
Context (url_name url_owner : GitUrl → string).
Context (authModificator : GitUrl → Platform → string → Completion string).

Definition processRequest (context : Context.t) (config : Typed.RequestsConfig)
  : Prog unit :=
  if (length (Typed.assets config) =? 0)%nat then Ret tt
  else
    let releaseBranch := Context.branch_name context in
    url ← lift (parse (Typed.repositoryUrl config));
    authRemote ← lift (authModificator url (Typed.platform config) (Typed.token config));
    let changesBranch :=
      "release/" +:+ releaseBranch +:+ "/"
      +:+ NextRelease.version (Context.nextRelease context) in
    try_catch
      (checkout changesBranch (Context.cwd context) (Context.env context);;
       add (Typed.assets config) (Context.cwd context) (Context.env context);;
       let templateData :=
         CommitData releaseBranch (Context.lastRelease context)
           (Context.nextRelease context) in
       message ← lift (template (Typed.commit config) templateData);
       commit message (Context.cwd context) (Context.env context);;
       (if Typed.dryRun config then
          logger_log ("Running with --dry-run, push to '" +:+ changesBranch
                      +:+ "' will not update remote state.")
        else Ret tt);;
       push authRemote changesBranch (Typed.dryRun config) (Context.cwd context)
         (Context.env context);;
       checkout releaseBranch (Context.cwd context) (Context.env context))
      (λ error,
         Throw (SemanticReleaseError
                  ("Failed to add release assets to " +:+ changesBranch
                   +:+ " branch. Not proceeded with release.")
                  "EPUSHASSETS" (Some (String_ error))));;
    try_catch
      (let templateData :=
         RequestData changesBranch (Context.lastRelease context)
           (Context.nextRelease context) releaseBranch in
       title ← lift (template (Typed.title config) templateData);
       let body :=
         {| Metadata.body :=
              default EmptyString (NextRelease.notes (Context.nextRelease context));
            Metadata.from := changesBranch;
            Metadata.name := url_name url;
            Metadata.owner := url_owner url;
            Metadata.title := title;
            Metadata.to := releaseBranch |} in
       createPR (Typed.baseUrl config +:+ Typed.apiPathPrefix config)
         (Typed.platform config) (Typed.token config) body)
      (λ error,
         logger_error ("Failed to create pull request from '" +:+ changesBranch
                       +:+ "' to '" +:+ releaseBranch +:+ "'.") error;;
         Ret tt).

(** The candidates whose [from] matches the release branch. *)
Definition appropriates (releaseBranch : string) (candidates : list ReleaseCandidate.t)
  : list ReleaseCandidate.t :=
  List.filter (λ branch, String_match releaseBranch (ReleaseCandidate.from branch))
    candidates.

(** The callback of the second [filter]: [find] yields the first [to]
    pattern that matches, or [undefined]; [filter] tests that value for
    truthiness. *)
Definition matches_target (targets : list string) (branch : string) : bool :=
  match List.find (λ target, String_match branch target) targets with
  | Some target => Js.truthy (JString target)
  | None => Js.truthy JUndefined
  end.

Definition getBranches (context : Context.t) (config : Typed.RequestsConfig)
  : Prog (list string) :=
  let releaseBranch := Context.branch_name context in
  let appropriates := appropriates releaseBranch (Typed.candidates config) in
  if (length appropriates =? 0)%nat then
    logger_log ("Current branch '" +:+ releaseBranch
                +:+ "' doesn't match any configured candidates.");;
    Ret []
  else
    logger_log ("Current branch '" +:+ releaseBranch
                +:+ "' matches following configured candidates: '"
                +:+ JSON_stringify (JArray (of_ReleaseCandidate <$> appropriates))
                +:+ "'. Performing pull requests creation.");;
    fetch (Typed.repositoryUrl config) (Context.cwd context) (Context.env context);;
    remote ← ls (Typed.repositoryUrl config) (Context.cwd context) (Context.env context);
    let branches :=
      List.filter (matches_target (ReleaseCandidate.to <$> appropriates))
        (List.filter (λ branch, negb (String.eqb releaseBranch branch)) remote) in
    if (length branches =? 0)%nat then
      logger_log "No configured candidates is present in remote origin, no pull request to create.";;
      Ret []
    else
      logger_log ("Retrieved following branches present in remote origin: '"
                  +:+ JSON_stringify (JArray (JString <$> branches)) +:+ "'");;
      Ret branches.

(** The [for ... of] loop of [createRequests]; [errors] is the array the
    loop pushes to. *)
Fixpoint createRequests_loop (context : Context.t) (config : Typed.RequestsConfig)
  (url : GitUrl) (branches : list string) (errors : list Exn) : Prog (list Exn) :=
  match branches with
  | [] => Ret errors
  | branch :: rest =>
      let releaseBranch := Context.branch_name context in
      let templateData :=
        RequestData releaseBranch (Context.lastRelease context)
          (Context.nextRelease context) branch in
      if Typed.dryRun config then
        logger_log ("Running with --dry-run, created pull request would have been from '"
                    +:+ releaseBranch +:+ "' into '" +:+ branch +:+ "'.");;
        createRequests_loop context config url rest errors
      else
        errors ←
          try_catch
            (title ← lift (template (Typed.title config) templateData);
             let body :=
               {| Metadata.body :=
                    default EmptyString (NextRelease.notes (Context.nextRelease context));
                  Metadata.from := releaseBranch;
                  Metadata.name := url_name url;
                  Metadata.owner := url_owner url;
                  Metadata.title := title;
                  Metadata.to := branch |} in
             createPR (Typed.baseUrl config +:+ Typed.apiPathPrefix config)
               (Typed.platform config) (Typed.token config) body;;
             Ret errors)
            (λ prError,
               Ret (errors
                    ++ [SemanticReleaseError
                          ("Failed to create pull request from '" +:+ releaseBranch
                           +:+ "' to '" +:+ branch +:+ "'.")
                          "EPULLREQUEST" (Some (String_ prError))]));
        createRequests_loop context config url rest errors
  end.

Definition createRequests (context : Context.t) (config : Typed.RequestsConfig)
  (branches : list string) : Prog unit :=
  url ← lift (parse (Typed.repositoryUrl config));
  errors ← createRequests_loop context config url branches [];
  if (0 <? length errors)%nat then Throw (AggregateError errors) else Ret tt.

(** ** The entry module *)

(** The entry module does not import the [aggregate-error] package: the name
    [AggregateError] in [success] is the class the run time provides.  Which
    thrown values are instances of it is left open. *)
Context (instanceof_AggregateError : Exn → bool).

Definition instanceof_SemanticReleaseError (error : Exn) : bool :=
  match error with SemanticReleaseError _ _ _ => true | _ => false end.

Definition verifyConditions (globalConfig : Raw.RequestsConfig) (context : Context.t)
  : Completion Raw.RequestsConfig :=
  let config := ensureDefault globalConfig (Context.env context) in
  verifyConfig config;;
  Returns config.

(** [processRequest(context, config)] is called without [await]. *)
Definition prepare (globalConfig : Raw.RequestsConfig) (context : Context.t)
  : Prog unit :=
  config ← lift (verifyConditions globalConfig context);
  unawaited (processRequest context (as_RequestsConfig config)).

Definition success (globalConfig : Raw.RequestsConfig) (context : Context.t)
  : Prog unit :=
  config ← lift (verifyConditions globalConfig context);
  try_catch
    (branches ← getBranches context (as_RequestsConfig config);
     createRequests context (as_RequestsConfig config) branches)
    (λ error,
       if instanceof_AggregateError error || instanceof_SemanticReleaseError error
       then Throw error
       else Throw (SemanticReleaseError
                     "Failed to create release candidates pull requests."
                     "ERCPULLREQUESTS" (Some (String_ error)))).

(** ** The specification's reading of the operations *)

(** Branch matching: the remote branches other than the release branch that
    match the [to] pattern of at least one candidate whose [from] pattern
    matches the release branch. *)
Definition expected_branches (releaseBranch : string)
  (candidates : list ReleaseCandidate.t) (remote : list string) : list string :=
  List.filter
    (λ branch,
       negb (String.eqb branch releaseBranch)
       && existsb
            (λ candidate,
               String_match releaseBranch (ReleaseCandidate.from candidate)
               && String_match branch (ReleaseCandidate.to candidate))
            candidates)
    remote.

(** The errors [createRequests] records. *)
Definition is_EPULLREQUEST (error : Exn) : Prop :=
  ∃ message details, error = SemanticReleaseError message "EPULLREQUEST" details.

(** How many request creations of a run were answered by an error. *)
Definition createPR_failures (trace : Trace) : nat :=
  length (List.filter (λ entry, is_createPR entry.1 && rejected entry.2) trace).

(** Every [git push] of a run passed [--dry-run]. *)
Definition pushes_dry (trace : Trace) : bool :=
  forallb
    (λ entry, implb (is_git_command "push" entry.1) (passes_flag "--dry-run" entry.1))
    trace.

(** Configuration resolution.  [variable env name] is the value of an
    environment variable, if it is set. *)
Definition variable (env : option Env) (name : string) : option string :=
  vars ← env; vars !! name.

(** The value of the first variable of a list that is set. *)
Fixpoint first_set (env : option Env) (names : list string) : option string :=
  match names with
  | [] => None
  | name :: rest =>
      match variable env name with
      | Some value => Some value
      | None => first_set env rest
      end
  end.

Definition token_variables : list string :=
  ["BB_TOKEN"; "BITBUCKET_TOKEN"; "GITEA_TOKEN"; "GH_TOKEN"; "GITHUB_TOKEN"; "GL_TOKEN";
   "GITLAB_TOKEN"].

(** The priority table: each platform with the variables that announce it and
    its default API path prefix. *)
Definition platform_table : list (Platform * list string * string) :=
  [ (BITBUCKET, ["BITBUCKET_URL"], "/rest/api/1.0");
    (BITBUCKET_CLOUD, ["BITBUCKET_CLOUD_URL"], "/2.0");
    (GITEA, ["GITEA_URL"], "/api/v1");
    (GITHUB, ["GH_URL"; "GITHUB_URL"; "GITHUB_API_URL"], EmptyString);
    (GITLAB, ["GL_URL"; "GITLAB_URL"; "CI_SERVER_URL"], "/api/v4") ].

(** The first row of the table whose group of variables yields a URL: a group
    stands for its first variable that is set, and it yields a URL when that
    value is not empty. *)
Fixpoint select_platform (env : option Env) (table : list (Platform * list string * string))
  : option (Platform * string * string) :=
  match table with
  | [] => None
  | (platform, names, prefix) :: rest =>
      match first_set env names with
      | Some url =>
          if Str.is_empty url then select_platform env rest
          else Some (platform, url, prefix)
      | None => select_platform env rest
      end
  end.

(** What [getURLs] computes, read off the code: a truthy explicit [baseUrl]
    first, then the table; a configured [apiPathPrefix] replaces the default
    prefix wherever a base URL was found. *)
Definition resolve_by_priority (config : Raw.RequestsConfig) (env : option Env)
  : Platform * JsValue * JsValue :=
  if Js.truthy (Raw.baseUrl config) then
    (NULL, Raw.baseUrl config, Raw.apiPathPrefix config ?? JString EmptyString)
  else
    match select_platform env platform_table with
    | Some (platform, url, prefix) =>
        (platform, JString url, Raw.apiPathPrefix config ?? JString prefix)
    | None => (NULL, JString EmptyString, JString EmptyString)
    end.

(** The resolution as the specification words it.  The variables in priority
    order, each with the platform it selects and that platform's default API
    path prefix. *)
Definition url_table : list (string * Platform * string) :=
  [ ("BITBUCKET_URL", BITBUCKET, "/rest/api/1.0");
    ("BITBUCKET_CLOUD_URL", BITBUCKET_CLOUD, "/2.0");
    ("GITEA_URL", GITEA, "/api/v1");
    ("GH_URL", GITHUB, EmptyString);
    ("GITHUB_URL", GITHUB, EmptyString);
    ("GITHUB_API_URL", GITHUB, EmptyString);
    ("GL_URL", GITLAB, "/api/v4");
    ("GITLAB_URL", GITLAB, "/api/v4");
    ("CI_SERVER_URL", GITLAB, "/api/v4") ].

Definition url_variables : list string := List.map (λ row, row.1.1) url_table.

(** The first variable of the table that is set, with its value. *)
Fixpoint first_row (env : option Env) (table : list (string * Platform * string))
  : option (string * Platform * string) :=
  match table with
  | [] => None
  | (name, platform, prefix) :: rest =>
      match variable env name with
      | Some url => Some (url, platform, prefix)
      | None => first_row env rest
      end
  end.

(** An explicit [baseUrl] first, then the first variable that is set; a
    configured [apiPathPrefix] always overrides the default prefix. *)
Definition claimed_resolution (config : Raw.RequestsConfig) (env : option Env)
  : Platform * JsValue * JsValue :=
  if Js.truthy (Raw.baseUrl config) then
    (NULL, Raw.baseUrl config, Raw.apiPathPrefix config ?? JString EmptyString)
  else
    match first_row env url_table with
    | Some (url, platform, prefix) =>
        (platform, JString url, Raw.apiPathPrefix config ?? JString prefix)
    | None => (NULL, JString EmptyString, Raw.apiPathPrefix config ?? JString EmptyString)
    end.

(** Validation.  A non-empty string; one of the five platform names; the
    value of a property of a candidate entry, absent on anything that is not
    an object. *)
Definition non_empty_string (value : JsValue) : bool :=
  match value with
  | JString s => negb (Str.is_empty s)
  | _ => false
  end.

Definition known_platform (value : JsValue) : bool :=
  match value with
  | JString s =>
      existsb (λ name, String.eqb name s)
        ["bitbucket"; "bitbucket-cloud"; "gitea"; "github"; "gitlab"]
  | _ => false
  end.

Definition property (entry : JsValue) (key : string) : JsValue :=
  match entry with
  | JObject props => Js.lookup key props
  | _ => JUndefined
  end.

(** A candidate entry whose [from] or [to] is absent or empty. *)
Definition incomplete_candidate (entry : JsValue) : bool :=
  negb (non_empty_string (property entry "from"))
  || negb (non_empty_string (property entry "to")).

(** The malformations the specification lists, field by field. *)
Definition malformed (key : Key.t) (value : JsValue) : bool :=
  match key with
  | Key.apiPathPrefix => negb (Js.isString value)
  | Key.assets =>
      match value with
      | JArray items => negb (forallb non_empty_string items)
      | _ => true
      end
  | Key.baseUrl | Key.commit | Key.title | Key.token => negb (non_empty_string value)
  | Key.candidates =>
      match value with
      | JArray items => existsb incomplete_candidate items
      | _ => false
      end
  | Key.platform => negb (known_platform value)
  | Key.debug | Key.dryRun | Key.repositoryUrl => false
  end.

(** What the validators reject: the listed malformations, and besides them a
    [debug] or [dryRun] that is not a boolean, a [repositoryUrl] that is not a
    non-empty string, and [candidates] that is not an array. *)
Definition invalid (key : Key.t) (value : JsValue) : bool :=
  match key with
  | Key.debug | Key.dryRun => negb (Js.isBoolean value)
  | Key.repositoryUrl => negb (non_empty_string value)
  | Key.candidates => negb (Js.isArray value) || malformed key value
  | _ => malformed key value
  end.

(** [config[key]] *)
Definition field (config : Raw.RequestsConfig) (key : Key.t) : JsValue :=
  match key with
  | Key.apiPathPrefix => Raw.apiPathPrefix config
  | Key.assets => Raw.assets config
  | Key.baseUrl => Raw.baseUrl config
  | Key.candidates => Raw.candidates config
  | Key.commit => Raw.commit config
  | Key.debug => Raw.debug config
  | Key.dryRun => Raw.dryRun config
  | Key.platform => Raw.platform config
  | Key.repositoryUrl => Raw.repositoryUrl config
  | Key.title => Raw.title config
  | Key.token => Raw.token config
  end.

(** The descriptive errors of the invalid fields, in the order of the
    properties. *)
Definition expected_errors (config : Raw.RequestsConfig) : list Exn :=
  List.map (λ entry, getConfigError entry.1 entry.2)
    (List.filter (λ entry, invalid entry.1 entry.2) (Object_entries config)).

(** A [candidates] array without [null] or [undefined] entry. *)
Definition readable (key : Key.t) (value : JsValue) : bool :=
  match key, value with
  | Key.candidates, JArray items => forallb (λ entry, negb (Js.nullish entry)) items
  | _, _ => true
  end.

Definition error_code (key : Key.t) : string :=
  match key with
  | Key.apiPathPrefix => "EINVALIDAPIPATHPREFIX"
  | Key.assets => "EINVALIDASSETS"
  | Key.baseUrl => "EINVALIDBASEURL"
  | Key.candidates => "EINVALIDCANDIDATES"
  | Key.commit => "EINVALIDCOMMIT"
  | Key.debug => "EINVALIDDEBUG"
  | Key.dryRun => "EINVALIDDRYRUN"
  | Key.platform => "EINVALIDPLATFORM"
  | Key.repositoryUrl => "EINVALIDREPOSITORYURL"
  | Key.title => "EINVALIDTITLE"
  | Key.token => "EINVALIDTOKEN"
  end.

Definition error_message (key : Key.t) : string :=
  "Invalid '" +:+ Key.name key +:+ "' configuration"
  +:+ match key with
      | Key.debug | Key.dryRun | Key.repositoryUrl =>
          " (coming from semantic-release options)."
      | _ => "."
      end.

(** ** Further observations on the code *)

(** The output of [git ls-remote --heads]: one line per head, the object
    name, a tab, the reference; lines are separated by line feeds. *)
Fixpoint free_of (c : ascii) (s : string) : bool :=
  match s with
  | EmptyString => true
  | String a s' => negb (Ascii.eqb a c) && free_of c s'
  end.

Definition ls_remote_line (head : string * string) : string :=
  head.1 +:+ String Str.TAB ("refs/heads/" +:+ head.2).

Fixpoint unlines (lines : list string) : string :=
  match lines with
  | [] => EmptyString
  | [line] => line
  | line :: rest => line +:+ String Str.LF (unlines rest)
  end.

(** An object name and a branch name as git prints them: no tab, no line
    feed, and the object name is not itself a reference. *)
Definition printable_head (head : string * string) : bool :=
  free_of Str.TAB head.1 && free_of Str.LF head.1
  && free_of Str.TAB head.2 && free_of Str.LF head.2
  && negb (Str.startsWith head.1 "refs/heads/").

(** The target branches of the request creations of a run, in order. *)
Definition request_targets (trace : Trace) : list string :=
  List.concat
    (List.map
       (λ entry, match entry.1 with
                 | CreatePR _ _ _ body => [Metadata.to body]
                 | _ => []
                 end)
       trace).

(** The source branches of the request creations of a run, in order. *)
Definition request_sources (trace : Trace) : list string :=
  List.concat
    (List.map
       (λ entry, match entry.1 with
                 | CreatePR _ _ _ body => [Metadata.from body]
                 | _ => []
                 end)
       trace).

(** The code of a [SemanticReleaseError], empty for other errors. *)
Definition Exn_code (error : Exn) : string :=
  match error with
  | SemanticReleaseError _ code _ => code
  | _ => EmptyString
  end.

(** [{ ...config, token }] *)
Definition with_token (token : JsValue) (config : Raw.RequestsConfig)
  : Raw.RequestsConfig :=
  {| Raw.apiPathPrefix := Raw.apiPathPrefix config;
     Raw.assets := Raw.assets config;
     Raw.baseUrl := Raw.baseUrl config;
     Raw.candidates := Raw.candidates config;
     Raw.commit := Raw.commit config;
     Raw.debug := Raw.debug config;
     Raw.dryRun := Raw.dryRun config;
     Raw.platform := Raw.platform config;
     Raw.repositoryUrl := Raw.repositoryUrl config;
     Raw.title := Raw.title config;
     Raw.token := token |}.

(** The options [{ repositoryUrl }]: what the orchestrator passes when the
    plugin is given no option of its own. *)
Definition options_repositoryUrl (repositoryUrl : string) : Raw.RequestsConfig :=
  {| Raw.apiPathPrefix := JUndefined; Raw.assets := JUndefined; Raw.baseUrl := JUndefined;
     Raw.candidates := JUndefined; Raw.commit := JUndefined; Raw.debug := JUndefined;
     Raw.dryRun := JUndefined; Raw.platform := JUndefined;
     Raw.repositoryUrl := JString repositoryUrl;
     Raw.title := JUndefined; Raw.token := JUndefined |}.

(** The git commands that only read the remote. *)
Definition reads_only (call : Call) : bool :=
  negb (is_git call) || is_git_command "fetch" call || is_git_command "ls-remote" call.

(** ** Proof automation *)

(** Case analysis on what the world answers to the calls of a run. *)
Ltac answer world :=
  repeat match goal with
    | |- context [world ?past ?call] => destruct (world past call) eqn:?; cbn
    end.

(** Case analysis on an environment variable: unset, empty, or not empty. *)
Ltac case_variable env name :=
  destruct (variable env name) as [[| ? ?] |]; cbn; try reflexivity.

(** The same, the empty case being excluded by a hypothesis. *)
Ltac case_set env name :=
  destruct (variable env name) as [[| ? ?] |] eqn:?; [congruence | ..]; cbn;
  try reflexivity.

(** * Properties *)

(** ** Running programs *)

Lemma run_bind {A B : Type} (world : World) (p : Prog A) (f : A → Prog B) :
  ∀ past,
    run world past (p ≫= f) =
    match run world past p with
    | (trace, Returns a) =>
        let '(trace', completion) := run world (past ++ trace) (f a) in
        (trace ++ trace', completion)
    | (trace, Throws e) => (trace, Throws e)
    end.
Proof.
  induction p as [a | e | call k IH]; intros past.
  - change (Ret a ≫= f) with (f a). cbn. rewrite app_nil_r.
    now destruct (run world past (f a)).
  - reflexivity.
  - change (Vis call k ≫= f) with (Vis call (λ reply, k reply ≫= f)). cbn.
    rewrite IH.
    destruct (run world (past ++ [(call, world past call)]) (k (world past call)))
      as [trace [a | e]]; [| reflexivity].
    rewrite <- app_assoc. cbn.
    now destruct (run world (past ++ (call, world past call) :: trace) (f a)).
Qed.

Lemma run_try_catch {A : Type} (world : World) (p : Prog A) (handler : Exn → Prog A) :
  ∀ past,
    run world past (try_catch p handler) =
    match run world past p with
    | (trace, Returns a) => (trace, Returns a)
    | (trace, Throws e) =>
        let '(trace', completion) := run world (past ++ trace) (handler e) in
        (trace ++ trace', completion)
    end.
Proof.
  induction p as [a | e | call k IH]; intros past.
  - reflexivity.
  - cbn. rewrite app_nil_r. now destruct (run world past (handler e)).
  - cbn. rewrite IH.
    destruct (run world (past ++ [(call, world past call)]) (k (world past call)))
      as [trace [a | e]]; [reflexivity |].
    rewrite <- app_assoc. cbn.
    now destruct (run world (past ++ (call, world past call) :: trace) (handler e)).
Qed.

Lemma run_lift {A : Type} (world : World) (past : Trace) (c : Completion A) :
  run world past (lift c) = ([], c).
Proof. now destruct c. Qed.

(** ** processRequest *)

(** C9. With an empty [assets] list [processRequest] returns at once: in
    every world the run makes no call at all (no git operation, no request
    creation, not even a log line) and completes normally, whatever the
    other fields of the configuration are. *)
Theorem processRequest_without_assets (context : Context.t)
  (config : Typed.RequestsConfig) :
  Typed.assets config = [] →
  processRequest context config = Ret tt
  ∧ ∀ world past, run world past (processRequest context config) = ([], Returns tt).
Proof.
  intros Hassets. unfold processRequest. rewrite Hassets. cbn. split; reflexivity.
Qed.

(** C6. If, during a run of [processRequest], a git command is answered by
    an error (checkout of the asset branch, add, commit, push, or the
    checkout back), the run ends by throwing a [SemanticReleaseError] with
    code [EPUSHASSETS], and no request creation is attempted. *)
Theorem processRequest_asset_branch_failure (context : Context.t)
  (config : Typed.RequestsConfig) (world : World) :
  git_failure (trace_of world (processRequest context config)) = true →
  (∃ message details,
      completion_of world (processRequest context config)
      = Throws (SemanticReleaseError message "EPUSHASSETS" details))
  ∧ calls is_createPR (trace_of world (processRequest context config)) = false.
Proof.
  unfold trace_of, completion_of, processRequest.
  destruct (Typed.assets config) as [| asset assets]; cbn; [discriminate |].
  destruct (parse (Typed.repositoryUrl config)) as [url | e]; cbn; [| discriminate].
  destruct (authModificator url (Typed.platform config) (Typed.token config))
    as [authRemote | e]; cbn; [| discriminate].
  destruct (world [] _) eqn:Hcheckout; cbn.
  2: { intros _. split; [eauto | reflexivity]. }
  destruct (world [_] _) eqn:Hadd; cbn.
  2: { intros _. split; [eauto | reflexivity]. }
  destruct (template (Typed.commit config) _) as [message | e]; cbn.
  2: { discriminate. }
  destruct (world [_; _] _) eqn:Hcommit; cbn.
  2: { intros _. split; [eauto | reflexivity]. }
  destruct (Typed.dryRun config); cbn.
  all: answer world; try (intros _; split; [eauto | reflexivity]).
  all: destruct (template (Typed.title config) _) as [title | e]; cbn;
    try discriminate.
  all: answer world; discriminate.
Qed.

(** ** getBranches *)







(** ** createRequests *)

Lemma existsb_count {A : Type} (p : A → bool) (l : list A) :
  existsb p l = true → (1 ≤ length (List.filter p l))%nat.
Proof.
  induction l as [| x l IH]; cbn; [discriminate |].
  destruct (p x); cbn; [lia | exact IH].
Qed.

Lemma createPR_failures_app (trace trace' : Trace) :
  createPR_failures (trace ++ trace') = (createPR_failures trace + createPR_failures trace')%nat.
Proof. unfold createPR_failures. now rewrite List.filter_app, length_app. Qed.

Lemma calls_app (p : Call → bool) (trace trace' : Trace) :
  calls p (trace ++ trace') = calls p trace || calls p trace'.
Proof. apply existsb_app. Qed.

(** In dry-run mode the loop only logs. *)
Lemma createRequests_loop_dryRun (context : Context.t) (config : Typed.RequestsConfig)
  (url : GitUrl) (world : World) (branches : list string) :
  Typed.dryRun config = true →
  ∀ past errors,
    ∃ trace,
      run world past (createRequests_loop context config url branches errors)
      = (trace, Returns errors)
      ∧ calls is_createPR trace = false
      ∧ calls is_git trace = false.
Proof.
  intros Hdry. induction branches as [| branch rest IH]; intros past errors; cbn.
  - now exists [].
  - rewrite Hdry. cbn.
    destruct (IH (past ++ [(LoggerLog
                ("Running with --dry-run, created pull request would have been from '"
                 +:+ Context.branch_name context +:+ "' into '" +:+ branch +:+ "'."),
                world past (LoggerLog
                  ("Running with --dry-run, created pull request would have been from '"
                   +:+ Context.branch_name context +:+ "' into '" +:+ branch +:+ "'.")))])
              errors) as (trace & Hrun & Hpr & Hgit).
    rewrite Hrun. eexists. split; [reflexivity |]. unfold calls in *. cbn. auto.
Qed.

(** Dry-run mode, fan-out requests: [createRequests] never calls the request
    creation API, for any list of target branches. *)
Lemma createRequests_dryRun (context : Context.t) (config : Typed.RequestsConfig)
  (branches : list string) (world : World) :
  Typed.dryRun config = true →
  calls is_createPR (trace_of world (createRequests context config branches)) = false
  ∧ calls is_git (trace_of world (createRequests context config branches)) = false.
Proof.
  intros Hdry. unfold trace_of, createRequests.
  destruct (parse (Typed.repositoryUrl config)) as [url | e]; cbn; [| auto].
  change (bind ?p ?f) with (p ≫= f). rewrite run_bind.
  destruct (createRequests_loop_dryRun context config url world branches Hdry [] [])
    as (trace & Hrun & Hpr & Hgit).
  rewrite Hrun. cbn. rewrite app_nil_r. auto.
Qed.

(** Outside dry-run mode the loop visits every branch: it completes normally
    with the errors recorded so far, each failed creation adding one
    [EPULLREQUEST] error. *)
Lemma createRequests_loop_errors (context : Context.t) (config : Typed.RequestsConfig)
  (url : GitUrl) (world : World) (branches : list string) :
  ∀ past errors,
    ∃ trace recorded,
      run world past (createRequests_loop context config url branches errors)
      = (trace, Returns (errors ++ recorded))
      ∧ Forall is_EPULLREQUEST recorded
      ∧ (createPR_failures trace ≤ length recorded)%nat
      ∧ calls is_git trace = false.
Proof.
  induction branches as [| branch rest IH]; intros past errors; cbn.
  { exists [], []. rewrite app_nil_r. repeat split; [constructor | cbn; lia]. }
  destruct (Typed.dryRun config); cbn.
  { destruct (IH (past ++ [(LoggerLog
                ("Running with --dry-run, created pull request would have been from '"
                 +:+ Context.branch_name context +:+ "' into '" +:+ branch +:+ "'."),
                world past (LoggerLog
                  ("Running with --dry-run, created pull request would have been from '"
                   +:+ Context.branch_name context +:+ "' into '" +:+ branch +:+ "'.")))])
              errors) as (trace & recorded & Hrun & Hall & Hcount & Hgit).
    rewrite Hrun. eexists _, recorded. split; [reflexivity |].
    repeat split; [exact Hall | exact Hcount | exact Hgit]. }
  destruct (template (Typed.title config) _) as [title | e]; cbn.
  - match goal with
    | |- context [world past ?call] =>
        set (request := call); destruct (world past request) as [stdout | e] eqn:Hreply
    end; cbn.
    + destruct (IH (past ++ [(request, Resolved stdout)]) errors)
        as (trace & recorded & Hrun & Hall & Hcount & Hgit).
      rewrite Hrun. eexists _, recorded. split; [reflexivity |].
      repeat split; [exact Hall | exact Hcount | exact Hgit].
    + match goal with
      | |- context [createRequests_loop _ _ _ rest (errors ++ [?err])] => set (error := err)
      end.
      destruct (IH (past ++ [(request, Rejected e)]) (errors ++ [error]))
        as (trace & recorded & Hrun & Hall & Hcount & Hgit).
      rewrite Hrun. exists ((request, Rejected e) :: trace), (error :: recorded).
      rewrite <- app_assoc. split; [reflexivity |].
      repeat split.
      * constructor; [now eexists _, _ | exact Hall].
      * unfold createPR_failures in *. cbn. lia.
      * exact Hgit.
  - match goal with
    | |- context [createRequests_loop _ _ _ rest (errors ++ [?err])] => set (error := err)
    end.
    destruct (IH past (errors ++ [error]))
      as (trace & recorded & Hrun & Hall & Hcount & Hgit).
    rewrite Hrun. exists trace, (error :: recorded).
    rewrite <- app_assoc. split; [reflexivity |].
    repeat split.
    + constructor; [now eexists _, _ | exact Hall].
    + cbn. lia.
    + exact Hgit.
Qed.

(** ** Dry-run mode *)

(** X26.  Dry-run mode, asset branch: whatever the world answers, every
    [git push] that [processRequest] issues carries [--dry-run]. *)
Lemma processRequest_dryRun_push (context : Context.t) (config : Typed.RequestsConfig)
  (world : World) :
  Typed.dryRun config = true →
  pushes_dry (trace_of world (processRequest context config)) = true.
Proof.
  intros Hdry. unfold trace_of, processRequest. rewrite Hdry.
  destruct (Typed.assets config) as [| asset assets]; cbn; [reflexivity |].
  destruct (parse (Typed.repositoryUrl config)) as [url | e]; cbn; [| reflexivity].
  destruct (authModificator url (Typed.platform config) (Typed.token config))
    as [authRemote | e]; cbn; [| reflexivity].
  destruct (world [] _); cbn; [| reflexivity].
  destruct (world [_] _); cbn; [| reflexivity].
  destruct (template (Typed.commit config) _) as [message | e]; cbn; [| reflexivity].
  answer world; try (unfold pushes_dry; cbn; now rewrite ?orb_true_r).
  all: destruct (template (Typed.title config) _) as [title | e]; cbn.
  all: answer world; unfold pushes_dry; cbn; now rewrite ?orb_true_r.
Qed.

(** C1, the defect.  In dry-run mode, once the asset branch went through
    (the push was issued and no git command failed) and the title template
    evaluates, [processRequest] still calls the request creation API: the
    dry-run flag only reaches [git push]. *)
Theorem processRequest_dryRun_creates_request (context : Context.t)
  (config : Typed.RequestsConfig) (world : World) :
  Typed.dryRun config = true →
  calls (is_git_command "push") (trace_of world (processRequest context config)) = true →
  git_failure (trace_of world (processRequest context config)) = false →
  (∀ data, ∃ title, template (Typed.title config) data = Returns title) →
  calls is_createPR (trace_of world (processRequest context config)) = true.
Proof.
  intros Hdry. unfold trace_of, processRequest. rewrite Hdry.
  destruct (Typed.assets config) as [| asset assets]; cbn; [discriminate |].
  destruct (parse (Typed.repositoryUrl config)) as [url | e]; cbn; [| discriminate].
  destruct (authModificator url (Typed.platform config) (Typed.token config))
    as [authRemote | e]; cbn; [| discriminate].
  destruct (world [] _); cbn; [| discriminate].
  destruct (world [_] _); cbn; [| discriminate].
  destruct (template (Typed.commit config) _) as [message | e]; cbn; [| discriminate].
  answer world.
  all: intros Hpush Hfailure Htitle; try discriminate Hpush; try discriminate Hfailure.
  all: match goal with
       | |- context [template _ (RequestData ?from ?last ?next ?to)] =>
           destruct (Htitle (RequestData from last next to)) as [title ->]
       end.
  all: cbn; answer world; reflexivity.
Qed.

(** ** Failures of request creation *)

(** [createRequests] at any point of a run: it throws the aggregate of the
    errors it recorded as soon as one request creation failed. *)
Lemma createRequests_run (context : Context.t) (config : Typed.RequestsConfig)
  (branches : list string) (world : World) (past : Trace) :
  ∃ trace completion,
    run world past (createRequests context config branches) = (trace, completion)
    ∧ calls is_git trace = false
    ∧ (createPR_failure trace = true →
       ∃ errors,
         completion = Throws (AggregateError errors)
         ∧ Forall is_EPULLREQUEST errors
         ∧ (1 ≤ createPR_failures trace ≤ length errors)%nat).
Proof.
  unfold createRequests.
  destruct (parse (Typed.repositoryUrl config)) as [url | e]; cbn.
  2: { eexists _, _. split; [reflexivity |]. split; [reflexivity | discriminate]. }
  change (bind ?p ?f) with (p ≫= f). rewrite run_bind.
  destruct (createRequests_loop_errors context config url world branches past [])
    as (trace & errors & Hrun & Hall & Hcount & Hgit).
  rewrite Hrun. cbn.
  destruct errors as [| error errors]; cbn; rewrite app_nil_r.
  - eexists _, _. split; [reflexivity |]. split; [exact Hgit |].
    intros Hfailure. apply existsb_count in Hfailure.
    unfold createPR_failures in Hcount. cbn in Hcount. lia.
  - eexists _, _. split; [reflexivity |]. split; [exact Hgit |].
    intros Hfailure. exists (error :: errors). split; [reflexivity |].
    split; [exact Hall |].
    apply existsb_count in Hfailure. unfold createPR_failures in *. cbn in *. lia.
Qed.

(** [getBranches] never creates a request. *)
Lemma getBranches_no_createPR (context : Context.t) (config : Typed.RequestsConfig)
  (world : World) :
  calls is_createPR (trace_of world (getBranches context config)) = false.
Proof.
  unfold trace_of, getBranches.
  destruct (appropriates _ _) as [| candidate rest]; cbn; [reflexivity |].
  destruct (world [_] _); cbn; [| reflexivity].
  destruct (world [_; _] _); cbn; [| reflexivity].
  now destruct (List.filter _ (List.filter _ _)).
Qed.

Lemma createPR_failure_calls (trace : Trace) :
  createPR_failure trace = true → calls is_createPR trace = true.
Proof.
  unfold createPR_failure, calls. induction trace as [| entry trace IH]; cbn; [easy |].
  destruct (is_createPR entry.1); cbn; [easy | exact IH].
Qed.

Lemma createPR_failure_app (trace trace' : Trace) :
  createPR_failure (trace ++ trace') = createPR_failure trace || createPR_failure trace'.
Proof. apply existsb_app. Qed.

(** C2, amended.  A failure of the single request opened by [processRequest]
    is logged through [logger.error] and swallowed: the run completes
    normally.  A failure of a fan-out request opened by [createRequests] is
    not swallowed: it is recorded as a [SemanticReleaseError] with code
    [EPULLREQUEST], one per failed creation at least, and after the loop
    [createRequests] throws the [AggregateError] of the recorded errors; the
    [success] hook, its caller, throws in turn. *)
Theorem request_creation_failures (context : Context.t) (config : Typed.RequestsConfig)
  (globalConfig : Raw.RequestsConfig) (branches : list string) (world : World) :
  (createPR_failure (trace_of world (processRequest context config)) = true →
   completion_of world (processRequest context config) = Returns tt
   ∧ ∃ data error reply,
       last (trace_of world (processRequest context config))
       = Some (LoggerError data error, reply))
  ∧ (createPR_failure (trace_of world (createRequests context config branches)) = true →
     ∃ errors,
       completion_of world (createRequests context config branches)
       = Throws (AggregateError errors)
       ∧ Forall is_EPULLREQUEST errors
       ∧ (1 ≤ createPR_failures (trace_of world (createRequests context config branches))
          ≤ length errors)%nat)
  ∧ (createPR_failure (trace_of world (success globalConfig context)) = true →
     ∃ error, completion_of world (success globalConfig context) = Throws error).
Proof.
  split; [| split].
  - unfold trace_of, completion_of, processRequest.
    destruct (Typed.assets config) as [| asset assets]; cbn; [discriminate |].
    destruct (parse (Typed.repositoryUrl config)) as [url | e]; cbn; [| discriminate].
    destruct (authModificator url (Typed.platform config) (Typed.token config))
      as [authRemote | e]; cbn; [| discriminate].
    destruct (world [] _); cbn; [| discriminate].
    destruct (world [_] _); cbn; [| discriminate].
    destruct (template (Typed.commit config) _) as [message | e]; cbn; [| discriminate].
    destruct (Typed.dryRun config); cbn.
    all: answer world; try discriminate.
    all: destruct (template (Typed.title config) _) as [title | e]; cbn.
    all: answer world; try discriminate.
    all: intros _; split; [reflexivity | eauto].
  - unfold trace_of, completion_of.
    destruct (createRequests_run context config branches world [])
      as (trace & completion & Hrun & _ & Hthrown).
    rewrite Hrun. exact Hthrown.
  - unfold trace_of, completion_of, success.
    destruct (verifyConditions globalConfig context) as [verified | e]; cbn;
      [| discriminate].
    rewrite run_try_catch. change (bind ?p ?f) with (p ≫= f). rewrite run_bind.
    pose proof (getBranches_no_createPR context (as_RequestsConfig verified) world)
      as Hbranches.
    unfold trace_of in Hbranches.
    destruct (run world [] (getBranches context (as_RequestsConfig verified)))
      as [trace [found | e]]; cbn [fst] in Hbranches; cbn.
    + destruct (createRequests_run context (as_RequestsConfig verified) found world trace)
        as (trace' & completion & Hrun & _ & Hthrown).
      rewrite Hrun. destruct completion as [[] | e]; cbn.
      * intros Hfailure. rewrite createPR_failure_app in Hfailure.
        apply orb_prop in Hfailure as [Hfailure | Hfailure].
        -- apply createPR_failure_calls in Hfailure. congruence.
        -- destruct (Hthrown Hfailure) as (errors & Hcompletion & _). discriminate.
      * destruct (instanceof_AggregateError e || instanceof_SemanticReleaseError e);
          cbn; eauto.
    + destruct (instanceof_AggregateError e || instanceof_SemanticReleaseError e);
        cbn; eauto.
Qed.

(** ** ensureDefault *)

Lemma optional_get_variable (env : option Env) (name : string) :
  env ?. name = match variable env name with
                | Some value => JString value
                | None => JUndefined
                end.
Proof. now destruct env. Qed.

Lemma getURLs_by_priority (config : Raw.RequestsConfig) (env : option Env) :
  getURLs config env = resolve_by_priority config env.
Proof.
  unfold getURLs, resolve_by_priority.
  destruct (Js.truthy (Raw.baseUrl config)); [reflexivity |].
  rewrite !optional_get_variable. cbn.
  case_variable env "BITBUCKET_URL";
    case_variable env "BITBUCKET_CLOUD_URL";
    case_variable env "GITEA_URL";
    case_variable env "GH_URL";
    try (case_variable env "GITHUB_URL"; try case_variable env "GITHUB_API_URL");
    case_variable env "GL_URL";
    try (case_variable env "GITLAB_URL"; try case_variable env "CI_SERVER_URL").
Qed.

(** C3, amended.  For every partial configuration and every environment in
    which none of the nine URL variables is set to the empty string,
    [ensureDefault] resolves the inferred platform, the base URL and the API
    path prefix by priority: a non-empty explicit [baseUrl] yields no inferred
    platform and the default prefix empty; otherwise the first variable that
    is set among [BITBUCKET_URL], [BITBUCKET_CLOUD_URL], [GITEA_URL],
    [GH_URL], [GITHUB_URL], [GITHUB_API_URL], [GL_URL], [GITLAB_URL],
    [CI_SERVER_URL] gives the base URL and selects [bitbucket],
    [bitbucket-cloud], [gitea], [github], [gitlab] with default prefix
    [/rest/api/1.0], [/2.0], [/api/v1], empty, [/api/v4]; whenever a base URL
    is resolved in one of these ways, a configured [apiPathPrefix] overrides
    the default, and without a configured prefix the default stands.  The
    returned platform is the configured one when there is one, the inferred
    one otherwise. *)
Theorem ensureDefault_resolution (config : Raw.RequestsConfig) (env : option Env) :
  Forall (λ name, variable env name ≠ Some EmptyString) url_variables →
  Js.truthy (Raw.baseUrl config) = true
  ∨ first_row env url_table ≠ None
  ∨ Js.nullish (Raw.apiPathPrefix config) = true →
  getURLs config env = claimed_resolution config env
  ∧ Raw.baseUrl (ensureDefault config env) = (claimed_resolution config env).1.2
  ∧ Raw.apiPathPrefix (ensureDefault config env) = (claimed_resolution config env).2
  ∧ Raw.platform (ensureDefault config env)
    = Raw.platform config ?? JString (Platform_value (claimed_resolution config env).1.1).
Proof.
  intros Hset Hfound.
  assert (Hurls : getURLs config env = claimed_resolution config env).
  { unfold getURLs, claimed_resolution in *.
    destruct (Js.truthy (Raw.baseUrl config)); [reflexivity |].
    rewrite !optional_get_variable.
    unfold url_variables in Hset. cbn in Hset, Hfound |- *.
    repeat match goal with
           | H : Forall _ (_ :: _) |- _ => inversion H; subst; clear H
           end.
    case_set env "BITBUCKET_URL"; case_set env "BITBUCKET_CLOUD_URL";
      case_set env "GITEA_URL"; case_set env "GH_URL"; case_set env "GITHUB_URL";
      case_set env "GITHUB_API_URL"; case_set env "GL_URL"; case_set env "GITLAB_URL";
      case_set env "CI_SERVER_URL".
    destruct Hfound as [Hfound | [Hfound | Hfound]];
      [discriminate | congruence |].
    now destruct (Raw.apiPathPrefix config). }
  split; [exact Hurls |].
  unfold ensureDefault. rewrite Hurls.
  now destruct (claimed_resolution config env) as [[platform baseUrl] apiPathPrefix].
Qed.

(** C8.  The token of the resolved configuration is the value of the first
    variable that is set among [BB_TOKEN], [BITBUCKET_TOKEN], [GITEA_TOKEN],
    [GH_TOKEN], [GITHUB_TOKEN], [GL_TOKEN], [GITLAB_TOKEN], and the empty
    string when none is: it depends neither on the platform that was inferred
    nor on anything in the options, a configured [token] included. *)
Theorem ensureDefault_token (config : Raw.RequestsConfig) (env : option Env) :
  Raw.token (ensureDefault config env)
  = JString (default EmptyString (first_set env token_variables)).
Proof.
  unfold ensureDefault.
  destruct (getURLs config env) as [[platform baseUrl] apiPathPrefix]. cbn.
  rewrite !optional_get_variable.
  destruct (variable env "BB_TOKEN"); cbn; [reflexivity |].
  destruct (variable env "BITBUCKET_TOKEN"); cbn; [reflexivity |].
  destruct (variable env "GITEA_TOKEN"); cbn; [reflexivity |].
  destruct (variable env "GH_TOKEN"); cbn; [reflexivity |].
  destruct (variable env "GITHUB_TOKEN"); cbn; [reflexivity |].
  destruct (variable env "GL_TOKEN"); cbn; [reflexivity |].
  destruct (variable env "GITLAB_TOKEN"); reflexivity.
Qed.

(** ** verifyConfig *)

Lemma filter_length_le {A : Type} (f : A → bool) (l : list A) :
  (length (List.filter f l) ≤ length l)%nat.
Proof. induction l as [| x l IH]; cbn; [lia |]. destruct (f x); cbn; lia. Qed.

Lemma filter_length_forallb {A : Type} (f : A → bool) (l : list A) :
  (length (List.filter f l) =? length l)%nat = forallb f l.
Proof.
  induction l as [| x l IH]; [reflexivity |]. cbn.
  destruct (f x); cbn; [exact IH |].
  apply Nat.eqb_neq. pose proof (filter_length_le f l). lia.
Qed.

Lemma isString_notEmpty (value : JsValue) :
  Js.isString value && stringNotEmpty value = non_empty_string value.
Proof. now destruct value. Qed.

Lemma validCandidate_complete (entry : JsValue) :
  Js.nullish entry = false →
  validCandidate entry = Returns (negb (incomplete_candidate entry)).
Proof.
  unfold validCandidate, incomplete_candidate, property.
  destruct entry as [| | b | n | s | items | props]; try discriminate; intros _; cbn;
    try reflexivity.
  destruct (Js.lookup "from" props) as [| | b | n | [| c s] | items | props'];
    cbn; try reflexivity.
  destruct (Js.lookup "to" props) as [| | b | n | [| c' s'] | items | props'];
    reflexivity.
Qed.

Lemma filterM_validCandidate (items : list JsValue) :
  forallb (λ entry, negb (Js.nullish entry)) items = true →
  filterM validCandidate items
  = Returns (List.filter (λ entry, negb (incomplete_candidate entry)) items).
Proof.
  induction items as [| entry items IH]; [reflexivity |]. cbn.
  intros [Hentry Hitems]%andb_prop. apply negb_true_iff in Hentry.
  rewrite (validCandidate_complete entry Hentry), (IH Hitems). cbn.
  now destruct (incomplete_candidate entry).
Qed.

Lemma forallb_negb_existsb {A : Type} (f : A → bool) (l : list A) :
  forallb (λ x, negb (f x)) l = negb (existsb f l).
Proof.
  induction l as [| x l IH]; [reflexivity |]. cbn. rewrite IH. now destruct (f x).
Qed.

Lemma validPlatform_known (value : JsValue) : validPlatform value = known_platform value.
Proof.
  destruct value as [| | b | n | s | items | props]; try reflexivity.
  unfold validPlatform, known_platform.
  replace (List.filter (λ platform, negb (Platform_eqb platform NULL)) Object_values_Platform)
    with [BITBUCKET; BITBUCKET_CLOUD; GITEA; GITHUB; GITLAB] by reflexivity.
  cbn -[String.eqb].
  destruct (String.eqb "bitbucket" s); [reflexivity |].
  destruct (String.eqb "bitbucket-cloud" s); [reflexivity |].
  destruct (String.eqb "gitea" s); [reflexivity |].
  destruct (String.eqb "github" s); [reflexivity |].
  destruct (String.eqb "gitlab" s); reflexivity.
Qed.

Lemma malformed_invalid (key : Key.t) (value : JsValue) :
  malformed key value = true → invalid key value = true.
Proof.
  destruct key; cbn; try discriminate; try (intros ->; now rewrite ?orb_true_r).
Qed.

(** One step of the reducer: the option's error is appended exactly when its
    value is invalid. *)
Lemma validate_invalid (key : Key.t) (value : JsValue) (agg : list Exn) :
  readable key value = true →
  validate (validators key) agg key value
  = Returns (if invalid key value then agg ++ [getConfigError key value] else agg).
Proof.
  destruct key; cbn.
  - now destruct value.
  - destruct value as [| | b | n | s | items | props]; try reflexivity.
    intros _. cbn.
    rewrite (List.filter_ext _ non_empty_string isString_notEmpty), filter_length_forallb.
    now destruct (forallb non_empty_string items).
  - now destruct value as [| | b | n | [| c s] | items | props].
  - destruct value as [| | b | n | s | items | props]; try reflexivity.
    intros Hreadable. unfold pure. cbn.
    rewrite (filterM_validCandidate items Hreadable). cbn.
    rewrite filter_length_forallb, forallb_negb_existsb.
    now destruct (existsb incomplete_candidate items).
  - now destruct value as [| | b | n | [| c s] | items | props].
  - now destruct value.
  - now destruct value.
  - intros _. unfold pure. rewrite validPlatform_known.
    destruct value as [| | b | n | s | items | props]; try reflexivity.
    cbn -[known_platform]. now destruct (known_platform (JString s)).
  - now destruct value as [| | b | n | [| c s] | items | props].
  - now destruct value as [| | b | n | [| c s] | items | props].
  - now destruct value as [| | b | n | [| c s] | items | props].
Qed.

Lemma reduceM_validate (entries : list (Key.t * JsValue)) :
  ∀ agg,
    forallb (λ entry, readable entry.1 entry.2) entries = true →
    reduceM (λ agg '(option, value), validate (validators option) agg option value)
      entries agg
    = Returns (agg ++ List.map (λ entry, getConfigError entry.1 entry.2)
                        (List.filter (λ entry, invalid entry.1 entry.2) entries)).
Proof.
  induction entries as [| [key value] entries IH]; intros agg; cbn.
  - now rewrite app_nil_r.
  - intros [Hentry Hentries]%andb_prop. rewrite (validate_invalid key value agg Hentry).
    cbn. rewrite (IH _ Hentries).
    destruct (invalid key value); cbn; [now rewrite <- app_assoc | reflexivity].
Qed.

Lemma verifyConfig_expected (config : Raw.RequestsConfig) :
  readable Key.candidates (Raw.candidates config) = true →
  verifyConfig config
  = (if (0 <? length (expected_errors config))%nat
     then Throws (AggregateError (expected_errors config))
     else Returns tt).
Proof.
  intros Hreadable. unfold verifyConfig. rewrite reduceM_validate; [reflexivity |].
  unfold Object_entries. cbn [forallb fst snd]. now rewrite Hreadable.
Qed.

(** C5, amended.  For a configuration whose [candidates] entries are neither
    [null] nor [undefined], [verifyConfig] throws an aggregate error holding,
    in the order of the properties, exactly the descriptive error of each
    invalid field, and returns without throwing when no field is invalid.  A
    field is invalid when it is malformed in one of the listed ways, and also
    when [debug] or [dryRun] is not a boolean, [repositoryUrl] is not a
    non-empty string, or [candidates] is not an array.  The error of a field
    has code [EINVALID] followed by the field's name in upper case, and the
    message [Invalid '<field>' configuration]. *)
Theorem verifyConfig_errors (config : Raw.RequestsConfig) :
  readable Key.candidates (Raw.candidates config) = true →
  verifyConfig config
  = (if (0 <? length (expected_errors config))%nat
     then Throws (AggregateError (expected_errors config))
     else Returns tt)
  ∧ (∀ key,
       malformed key (field config key) = true →
       In (getConfigError key (field config key)) (expected_errors config))
  ∧ ∀ key value,
      ∃ details,
        getConfigError key value
        = SemanticReleaseError (error_message key) (error_code key) details.
Proof.
  intros Hreadable. split; [| split].
  - now apply verifyConfig_expected.
  - intros key Hmalformed. unfold expected_errors.
    apply (List.in_map (λ entry, getConfigError entry.1 entry.2) _ (key, field config key)).
    apply List.filter_In. split.
    + destruct key; cbn; tauto.
    + now apply malformed_invalid.
  - intros key value. destruct key; eexists; reflexivity.
Qed.

(** A [null] or [undefined] entry in the [candidates] array: the validator
    reads a property of it, and [verifyConfig] ends with the engine's
    [TypeError] instead of an aggregate of configuration errors. *)
Lemma filterM_validCandidate_null (items : list JsValue) :
  existsb Js.nullish items = true → filterM validCandidate items = Throws TypeError.
Proof.
  induction items as [| entry items IH]; cbn; [discriminate |].
  destruct (Js.nullish entry) eqn:Hentry; cbn.
  - intros _. now destruct entry.
  - intros Hitems. rewrite (validCandidate_complete entry Hentry), (IH Hitems).
    reflexivity.
Qed.

Lemma verifyConfig_null_candidate (config : Raw.RequestsConfig) (items : list JsValue) :
  Raw.candidates config = JArray items →
  existsb Js.nullish items = true →
  verifyConfig config = Throws TypeError.
Proof.
  intros Hcandidates Hnull. unfold verifyConfig, Object_entries. cbn [reduceM].
  rewrite (validate_invalid Key.apiPathPrefix) by reflexivity. cbn [mbind Completion_bind].
  rewrite (validate_invalid Key.assets) by reflexivity. cbn [mbind Completion_bind].
  rewrite (validate_invalid Key.baseUrl) by reflexivity. cbn [mbind Completion_bind].
  rewrite Hcandidates. cbn [validators validate pure Js.isArray mbind Completion_bind].
  cbn [validCandidatesArray]. now rewrite (filterM_validCandidate_null items Hnull).
Qed.

(** ** The verified configuration at its declared type

    What [verifyConfig] lets through has the shape [RequestsConfig] declares,
    so that reading it through [as_RequestsConfig] loses nothing that
    lib/requests.ts looks at. *)

Lemma non_empty_string_as_string (value : JsValue) :
  non_empty_string value = true → value = JString (as_string value).
Proof. now destruct value. Qed.

Lemma non_empty_strings_as_string (items : list JsValue) :
  forallb non_empty_string items = true → JString <$> (as_string <$> items) = items.
Proof.
  induction items as [| item items IH]; [reflexivity |]. cbn.
  intros [Hitem Hitems]%andb_prop.
  now rewrite <- (non_empty_string_as_string item Hitem), (IH Hitems).
Qed.

Lemma known_platform_as_Platform (value : JsValue) :
  known_platform value = true → value = JString (Platform_value (as_Platform value)).
Proof.
  destruct value as [| | b | n | s | items | props]; try discriminate.
  unfold known_platform. cbn -[String.eqb].
  destruct (String.eqb "bitbucket" s) eqn:H1;
    [apply String.eqb_eq in H1; now subst |].
  destruct (String.eqb "bitbucket-cloud" s) eqn:H2;
    [apply String.eqb_eq in H2; now subst |].
  destruct (String.eqb "gitea" s) eqn:H3;
    [apply String.eqb_eq in H3; now subst |].
  destruct (String.eqb "github" s) eqn:H4;
    [apply String.eqb_eq in H4; now subst |].
  destruct (String.eqb "gitlab" s) eqn:H5;
    [apply String.eqb_eq in H5; now subst |].
  discriminate.
Qed.

Lemma complete_candidate_as_ReleaseCandidate (entry : JsValue) :
  incomplete_candidate entry = false →
  property entry "from" = JString (ReleaseCandidate.from (as_ReleaseCandidate entry))
  ∧ property entry "to" = JString (ReleaseCandidate.to (as_ReleaseCandidate entry)).
Proof.
  unfold incomplete_candidate.
  intros [Hfrom Hto]%orb_false_elim.
  apply negb_false_iff, non_empty_string_as_string in Hfrom, Hto.
  destruct entry; try discriminate Hfrom. cbn in *. now split.
Qed.

Lemma isBoolean_as_boolean (value : JsValue) :
  Js.isBoolean value = true → value = JBoolean (as_boolean value).
Proof. now destruct value. Qed.

Lemma filter_nil_Forall {A : Type} (f : A → bool) (l : list A) :
  List.filter f l = [] → Forall (λ x, f x = false) l.
Proof.
  induction l as [| x l IH]; cbn; [constructor |].
  destruct (f x) eqn:Hx; [discriminate |]. intros Hnil. constructor; auto.
Qed.

Lemma verifyConfig_readable (config : Raw.RequestsConfig) :
  verifyConfig config = Returns tt →
  readable Key.candidates (Raw.candidates config) = true.
Proof.
  intros Hvalid. destruct (Raw.candidates config) as [| | b | n | s | items | props] eqn:Hcandidates;
    try reflexivity.
  cbn. rewrite forallb_negb_existsb. apply negb_true_iff.
  destruct (existsb Js.nullish items) eqn:Hnull; [| reflexivity].
  rewrite (verifyConfig_null_candidate config items Hcandidates Hnull) in Hvalid.
  discriminate.
Qed.

(** X25.  Validation justifies the cast of the hooks: in a configuration that
    [verifyConfig] accepts, every field holds a value of its declared type,
    the one that [as_RequestsConfig] reads, the platform is one of the five
    known ones, and every candidate has its two patterns as strings. *)
Lemma verifyConfig_typed (config : Raw.RequestsConfig) :
  verifyConfig config = Returns tt →
  Raw.apiPathPrefix config = JString (Typed.apiPathPrefix (as_RequestsConfig config))
  ∧ Raw.assets config = JArray (JString <$> Typed.assets (as_RequestsConfig config))
  ∧ Raw.baseUrl config = JString (Typed.baseUrl (as_RequestsConfig config))
  ∧ Raw.commit config = JString (Typed.commit (as_RequestsConfig config))
  ∧ Raw.debug config = JBoolean (Typed.debug (as_RequestsConfig config))
  ∧ Raw.dryRun config = JBoolean (Typed.dryRun (as_RequestsConfig config))
  ∧ Raw.platform config = JString (Platform_value (Typed.platform (as_RequestsConfig config)))
  ∧ Raw.repositoryUrl config = JString (Typed.repositoryUrl (as_RequestsConfig config))
  ∧ Raw.title config = JString (Typed.title (as_RequestsConfig config))
  ∧ Raw.token config = JString (Typed.token (as_RequestsConfig config))
  ∧ ∃ items,
      Raw.candidates config = JArray items
      ∧ Typed.candidates (as_RequestsConfig config) = as_ReleaseCandidate <$> items
      ∧ Forall
          (λ entry,
             property entry "from"
             = JString (ReleaseCandidate.from (as_ReleaseCandidate entry))
             ∧ property entry "to"
               = JString (ReleaseCandidate.to (as_ReleaseCandidate entry)))
          items.
Proof.
  intros Hvalid.
  pose proof (verifyConfig_readable config Hvalid) as Hreadable.
  unfold verifyConfig in Hvalid. rewrite reduceM_validate in Hvalid.
  2: { unfold Object_entries. cbn [forallb fst snd]. now rewrite Hreadable. }
  assert (Hnone :
    Forall (λ entry, invalid entry.1 entry.2 = false) (Object_entries config)).
  { apply filter_nil_Forall.
    destruct (List.filter _ (Object_entries config)); [reflexivity | discriminate Hvalid]. }
  clear Hvalid. unfold Object_entries in Hnone.
  apply Forall_cons_1 in Hnone as [HapiPathPrefix Hnone].
  apply Forall_cons_1 in Hnone as [Hassets Hnone].
  apply Forall_cons_1 in Hnone as [HbaseUrl Hnone].
  apply Forall_cons_1 in Hnone as [Hcandidates Hnone].
  apply Forall_cons_1 in Hnone as [Hcommit Hnone].
  apply Forall_cons_1 in Hnone as [Hdebug Hnone].
  apply Forall_cons_1 in Hnone as [HdryRun Hnone].
  apply Forall_cons_1 in Hnone as [Hplatform Hnone].
  apply Forall_cons_1 in Hnone as [HrepositoryUrl Hnone].
  apply Forall_cons_1 in Hnone as [Htitle Hnone].
  apply Forall_cons_1 in Hnone as [Htoken _].
  cbn in *.
  apply negb_false_iff in HapiPathPrefix, HbaseUrl, Hcommit, Hdebug, HdryRun, Hplatform,
    HrepositoryUrl, Htitle, Htoken.
  unfold as_RequestsConfig. cbn.
  split; [now destruct (Raw.apiPathPrefix config) |].
  split.
  { destruct (Raw.assets config) as [| | b | n | s | items | props];
      try discriminate Hassets.
    cbn. f_equal. symmetry. apply non_empty_strings_as_string.
    now apply negb_false_iff. }
  split; [now apply non_empty_string_as_string |].
  split; [now apply non_empty_string_as_string |].
  split; [now apply isBoolean_as_boolean |].
  split; [now apply isBoolean_as_boolean |].
  split; [now apply known_platform_as_Platform |].
  split; [now apply non_empty_string_as_string |].
  split; [now apply non_empty_string_as_string |].
  split; [now apply non_empty_string_as_string |].
  destruct (Raw.candidates config) as [| | b | n | s | items | props];
    try discriminate Hcandidates.
  exists items. split; [reflexivity |]. split; [reflexivity |].
  cbn in Hcandidates. clear - Hcandidates.
  induction items as [| entry items IH]; [constructor |].
  cbn in Hcandidates. apply orb_false_elim in Hcandidates as [Hentry Hitems].
  constructor; [| now apply IH].
  now apply complete_candidate_as_ReleaseCandidate.
Qed.

(** ** The hooks *)


(** X20.  [prepare] drops the promise of [processRequest]: once the
    configuration is verified it completes normally, whatever became of the
    asset branch. *)
Lemma prepare_completion (globalConfig : Raw.RequestsConfig) (context : Context.t)
  (world : World) :
  verifyConfig (ensureDefault globalConfig (Context.env context)) = Returns tt →
  completion_of world (prepare globalConfig context) = Returns tt.
Proof.
  intros Hvalid. unfold completion_of, prepare, verifyConditions, unawaited.
  rewrite Hvalid. cbn.
  rewrite run_try_catch.
  change (bind ?p ?f) with (p ≫= f). rewrite run_bind.
  destruct (run world [] (processRequest context _)) as [trace [[] | e]]; cbn.
  - reflexivity.
  - reflexivity.
Qed.

(** * Further properties *)

(** ** ls *)

Lemma Set_values_spec (xs : list string) :
  ∀ seen,
    NoDup (Set_values seen xs)
    ∧ ∀ x, x ∈ Set_values seen xs ↔ x ∈ xs ∧ x ∉ seen.
Proof using Type.
  clear. induction xs as [| y xs IH]; intros seen; cbn.
  - split; [constructor |]. intros x. split; [intros []%elem_of_nil | intros [[]%elem_of_nil _]].
  - destruct (existsb (String.eqb y) seen) eqn:Hseen.
    + destruct (IH seen) as [Hnodup Hin]. split; [exact Hnodup |].
      intros x. rewrite Hin, elem_of_cons. split; [tauto |].
      intros [[-> | Hx] Hnot]; [| tauto].
      apply existsb_exists in Hseen as (z & Hz & ->%String.eqb_eq).
      exfalso. apply Hnot. now apply list_elem_of_In.
    + destruct (IH (y :: seen)) as [Hnodup Hin]. split.
      * constructor; [| exact Hnodup]. rewrite Hin. rewrite elem_of_cons. tauto.
      * intros x. rewrite !elem_of_cons, Hin, elem_of_cons.
        assert (Hy : y ∉ seen).
        { intros Hy%list_elem_of_In. apply Bool.not_true_iff_false in Hseen. apply Hseen.
          apply existsb_exists. exists y. split; [exact Hy | apply String.eqb_refl]. }
        split.
        -- intros [-> | [Hx Hnot]]; [tauto |]. tauto.
        -- intros [[-> | Hx] Hnot]; [tauto |].
           destruct (String.eqb x y) eqn:Hxy; [apply String.eqb_eq in Hxy; tauto |].
           apply String.eqb_neq in Hxy. tauto.
Qed.

Lemma free_of_app (c : ascii) (a b : string) :
  free_of c (a +:+ b) = free_of c a && free_of c b.
Proof.
  induction a as [| x a IH]; [reflexivity |].
  change (String x a +:+ b) with (String x (a +:+ b)). cbn [free_of].
  now rewrite IH, andb_assoc.
Qed.

Lemma split_free (sep : ascii) (a : string) :
  free_of sep a = true → Str.split a sep = [a].
Proof.
  induction a as [| x a IH]; [reflexivity |]. cbn.
  intros [Hx Ha]%andb_prop. apply negb_true_iff in Hx. rewrite Hx, (IH Ha). reflexivity.
Qed.

Lemma split_app (sep : ascii) (a b : string) :
  free_of sep a = true → Str.split (a +:+ String sep b) sep = a :: Str.split b sep.
Proof.
  induction a as [| x a IH].
  - intros _. change (EmptyString +:+ String sep b) with (String sep b).
    cbn [Str.split]. now rewrite Ascii.eqb_refl.
  - change (String x a +:+ String sep b) with (String x (a +:+ String sep b)).
    cbn [free_of Str.split].
    intros [Hx Ha]%andb_prop. apply negb_true_iff in Hx. rewrite Hx, (IH Ha). reflexivity.
Qed.

Lemma startsWith_app (p s : string) : Str.startsWith (p +:+ s) p = true.
Proof.
  induction p as [| c p IH]; [now destruct s |].
  change (String c p +:+ s) with (String c (p +:+ s)). cbn [Str.startsWith].
  now rewrite Ascii.eqb_refl.
Qed.

Lemma drop_app (p s : string) : Str.drop (String.length p) (p +:+ s) = s.
Proof. induction p as [| c p IH]; [now destruct s | exact IH]. Qed.

Lemma replace_prefix (p s : string) : Str.replace (p +:+ s) p EmptyString = s.
Proof.
  assert (Hunfold : ∀ t, Str.startsWith t p = true →
                         Str.replace t p EmptyString = Str.drop (String.length p) t).
  { intros t Ht. destruct t; cbn [Str.replace]; now rewrite Ht. }
  rewrite Hunfold by apply startsWith_app. apply drop_app.
Qed.

Lemma split_unlines (lines : list string) :
  Forall (λ line, free_of Str.LF line = true) lines →
  lines ≠ [] →
  Str.split (unlines lines) Str.LF = lines.
Proof.
  induction 1 as [| line lines Hline Hlines IH]; [congruence |]. intros _.
  destruct lines as [| line' lines]; cbn [unlines].
  - now apply split_free.
  - rewrite (split_app _ _ _ Hline). f_equal. apply IH. discriminate.
Qed.

Lemma ls_remote_line_tokens (head : string * string) :
  printable_head head = true →
  free_of Str.LF (ls_remote_line head) = true
  ∧ Str.split (ls_remote_line head) Str.TAB = [head.1; "refs/heads/" +:+ head.2].
Proof.
  unfold printable_head, ls_remote_line.
  intros [[[[Htab1 Hlf1]%andb_prop Htab2]%andb_prop Hlf2]%andb_prop _]%andb_prop.
  split.
  - rewrite free_of_app, Hlf1. cbn. exact Hlf2.
  - rewrite (split_app _ _ _ Htab1). f_equal. apply split_free. cbn. exact Htab2.
Qed.

(** X1.  Round trip through the output of [git ls-remote --heads]: from the
    lines that git prints for a list of heads, [ls] recovers exactly the
    branch names, each once, in order of first appearance; the object names
    and the [refs/heads/] prefixes are gone.  The empty output gives no
    branch. *)
Theorem ls_branches_unlines (heads : list (string * string)) :
  Forall (λ head, printable_head head = true) heads →
  ls_branches (unlines (ls_remote_line <$> heads)) = Set_values [] (heads.*2)
  ∧ NoDup (ls_branches (unlines (ls_remote_line <$> heads)))
  ∧ ∀ branch, branch ∈ ls_branches (unlines (ls_remote_line <$> heads)) ↔ branch ∈ heads.*2.
Proof.
  intros Hheads.
  assert (Hls : ls_branches (unlines (ls_remote_line <$> heads)) = Set_values [] (heads.*2)).
  { unfold ls_branches. f_equal.
    destruct heads as [| head heads]; [reflexivity |].
    rewrite split_unlines.
    - clear -Hheads. induction Hheads as [| h hs Hh _ IH]; [reflexivity |].
      cbn [fmap list_fmap List.map List.concat].
      rewrite (proj2 (ls_remote_line_tokens h Hh)).
      cbn [app List.filter].
      apply andb_prop in Hh as [_ Hsha]. apply negb_true_iff in Hsha. rewrite Hsha.
      rewrite startsWith_app. cbn [List.map]. rewrite replace_prefix.
      f_equal. exact IH.
    - apply Forall_fmap. eapply Forall_impl; [exact Hheads |].
      intros h Hh. exact (proj1 (ls_remote_line_tokens h Hh)).
    - discriminate. }
  rewrite Hls. destruct (Set_values_spec (heads.*2) []) as [Hnodup Hin].
  split; [reflexivity |]. split; [exact Hnodup |].
  intros branch. rewrite Hin. split; [intros [Hb _]; exact Hb |]. intros Hb.
  split; [exact Hb | apply not_elem_of_nil].
Qed.

Lemma startsWith_drop (t p : string) :
  Str.startsWith t p = true → t = p +:+ Str.drop (String.length p) t.
Proof.
  revert t. induction p as [| c p IH]; intros t; [now destruct t |].
  destruct t as [| d t]; cbn [Str.startsWith]; [discriminate |].
  destruct (Ascii.eqb c d) eqn:Hcd; [| discriminate].
  apply Ascii.eqb_eq in Hcd as ->. intros Ht.
  change (String d p +:+ Str.drop (String.length (String d p)) (String d t))
    with (String d (p +:+ Str.drop (String.length p) t)).
  f_equal. now apply IH.
Qed.

(** X2.  Whatever git prints, [ls] issues the single command
    [git ls-remote --heads remote], throws what that command raises, and
    otherwise returns, without duplicates, exactly the names [b] for which
    some line of the output has [refs/heads/b] among its tab-separated
    fields. *)
Theorem ls_members (world : World) (remote : string) (cwd : option string)
  (env : option Env) :
  (∃ reply,
      run world [] (ls remote cwd env)
      = ([(Execa "git" ["ls-remote"; "--heads"; remote] cwd env, reply)],
         match reply with
         | Resolved stdout => Returns (ls_branches stdout)
         | Rejected error => Throws error
         end))
  ∧ ∀ stdout,
      NoDup (ls_branches stdout)
      ∧ ∀ branch,
          branch ∈ ls_branches stdout
          ↔ ∃ line,
              line ∈ Str.split stdout Str.LF
              ∧ ("refs/heads/" +:+ branch) ∈ Str.split line Str.TAB.
Proof.
  split.
  { exists (world [] (Execa "git" ["ls-remote"; "--heads"; remote] cwd env)).
    unfold ls. cbn. now destruct (world [] _). }
  intros stdout. unfold ls_branches.
  destruct (Set_values_spec
              (List.map (λ branch, Str.replace branch "refs/heads/" EmptyString)
                 (List.filter (λ branch, Str.startsWith branch "refs/heads/")
                    (List.concat
                       (List.map (λ branch, Str.split branch Str.TAB)
                          (Str.split stdout Str.LF))))) []) as [Hnodup Hin].
  split; [exact Hnodup |].
  intros branch. rewrite Hin. split.
  - intros [Hbranch _]. apply list_elem_of_In, List.in_map_iff in Hbranch as (token & <- & Htoken).
    apply List.filter_In in Htoken as [Htoken Hprefix].
    apply List.in_concat in Htoken as (tokens & Htokens & Htoken).
    apply List.in_map_iff in Htokens as (line & <- & Hline).
    exists line. split; [now apply list_elem_of_In |].
    apply list_elem_of_In.
    rewrite (startsWith_drop token "refs/heads/" Hprefix) at 1.
    rewrite replace_prefix.
    now rewrite <- (startsWith_drop token "refs/heads/" Hprefix).
  - intros (line & Hline & Htoken). split; [| apply not_elem_of_nil].
    apply list_elem_of_In, List.in_map_iff. exists ("refs/heads/" +:+ branch).
    split; [apply replace_prefix |].
    apply List.filter_In. split; [| apply startsWith_app].
    apply List.in_concat. exists (Str.split line Str.TAB).
    split; [| now apply list_elem_of_In].
    apply List.in_map_iff. exists line. split; [reflexivity | now apply list_elem_of_In].
Qed.

(** ** getBranches, beyond the specification *)

Lemma matches_target_some (targets : list string) (branch : string) :
  matches_target targets branch = true →
  ∃ target, In target targets ∧ String_match branch target = true.
Proof.
  unfold matches_target.
  destruct (List.find _ targets) as [target |] eqn:Hfind; [| discriminate].
  intros _. apply List.find_some in Hfind. eauto.
Qed.

Lemma NoDup_filter_list {A : Type} (f : A → bool) (l : list A) :
  NoDup l → NoDup (List.filter f l).
Proof.
  induction 1 as [| x l Hx _ IH]; cbn; [constructor |].
  destruct (f x); [| exact IH]. constructor; [| exact IH].
  intros Hin. apply list_elem_of_In, List.filter_In in Hin. apply Hx.
  now apply list_elem_of_In.
Qed.

Lemma ls_branches_NoDup (stdout : string) : NoDup (ls_branches stdout).
Proof. unfold ls_branches. apply Set_values_spec. Qed.

(** X3.  Whatever the patterns are, what [getBranches] returns is safe: the
    branches are distinct, the release branch is never among them, and each
    one matches the [to] pattern of a candidate whose [from] pattern matches
    the release branch. *)
Theorem getBranches_sound (context : Context.t) (config : Typed.RequestsConfig)
  (world : World) (branches : list string) :
  completion_of world (getBranches context config) = Returns branches →
  NoDup branches
  ∧ (Context.branch_name context ∉ branches)
  ∧ ∀ branch,
      branch ∈ branches →
      ∃ candidate,
        candidate ∈ Typed.candidates config
        ∧ String_match (Context.branch_name context) (ReleaseCandidate.from candidate) = true
        ∧ String_match branch (ReleaseCandidate.to candidate) = true.
Proof.
  unfold completion_of, getBranches.
  destruct (appropriates (Context.branch_name context) (Typed.candidates config))
    as [| candidate rest] eqn:Happ; cbn.
  { intros [= <-]. split; [constructor |]. split; [apply not_elem_of_nil |].
    intros branch []%elem_of_nil. }
  destruct (world [_] _) as [fetched | e]; cbn; [| discriminate].
  destruct (world [_; _] _) as [stdout | e]; cbn; [| discriminate].
  set (found := List.filter _ (List.filter _ (ls_branches stdout))).
  assert (Hfound :
    NoDup found
    ∧ (Context.branch_name context ∉ found)
    ∧ ∀ branch,
        branch ∈ found →
        ∃ candidate,
          candidate ∈ Typed.candidates config
          ∧ String_match (Context.branch_name context) (ReleaseCandidate.from candidate)
            = true
          ∧ String_match branch (ReleaseCandidate.to candidate) = true).
  { subst found. split; [| split].
    - apply NoDup_filter_list, NoDup_filter_list, ls_branches_NoDup.
    - intros Hin. apply list_elem_of_In, List.filter_In in Hin as [Hin _].
      apply List.filter_In in Hin as [_ Hne]. now rewrite String.eqb_refl in Hne.
    - intros branch Hin. apply list_elem_of_In, List.filter_In in Hin as [_ Hmatch].
      change (ReleaseCandidate.to candidate :: (ReleaseCandidate.to <$> rest))
        with (ReleaseCandidate.to <$> (candidate :: rest)) in Hmatch.
      apply matches_target_some in Hmatch as (target & Htarget & Hmatch).
      apply List.in_map_iff in Htarget as (chosen & <- & Hchosen).
      rewrite <- Happ in Hchosen. apply List.filter_In in Hchosen as [Hchosen Hfrom].
      exists chosen. split; [now apply list_elem_of_In | now split]. }
  clearbody found.
  destruct found as [| branch found]; cbn.
  - intros [= <-]. split; [constructor |]. split; [apply not_elem_of_nil |].
    intros branch []%elem_of_nil.
  - intros [= <-]. exact Hfound.
Qed.

(** X4.  [getBranches] does not wrap the errors of git: when [git fetch] or
    [git ls-remote] fails, the run stops at that command and the error it
    raised is thrown as it is; after a failed fetch, [ls-remote] is not
    issued. *)
Theorem getBranches_git_failure (context : Context.t) (config : Typed.RequestsConfig)
  (world : World) :
  git_failure (trace_of world (getBranches context config)) = true →
  ∃ call error,
    last (trace_of world (getBranches context config)) = Some (call, Rejected error)
    ∧ is_git call = true
    ∧ completion_of world (getBranches context config) = Throws error
    ∧ (is_git_command "fetch" call = true →
       calls (is_git_command "ls-remote") (trace_of world (getBranches context config))
       = false).
Proof.
  unfold trace_of, completion_of, getBranches.
  destruct (appropriates (Context.branch_name context) (Typed.candidates config))
    as [| candidate rest]; cbn; [discriminate |].
  destruct (world [_] _) as [stdout | e]; cbn.
  2: { intros _. eexists _, e. repeat split. }
  destruct (world [_; _] _) as [stdout' | e]; cbn.
  2: { intros _. eexists _, e. repeat split. discriminate. }
  destruct (List.filter _ (List.filter _ _)); cbn; discriminate.
Qed.

(** ** processRequest, beyond the specification *)

(** X5.  [processRequest] stops at the first git command that fails: that
    command is the last call of the run, and its error is the one carried,
    as [String(error)], in the details of the [EPUSHASSETS] error, whose
    message names the asset branch [release/<branch>/<version>]. *)
Theorem processRequest_fail_fast (context : Context.t) (config : Typed.RequestsConfig)
  (world : World) :
  git_failure (trace_of world (processRequest context config)) = true →
  ∃ call cause,
    last (trace_of world (processRequest context config)) = Some (call, Rejected cause)
    ∧ is_git call = true
    ∧ completion_of world (processRequest context config)
      = Throws
          (SemanticReleaseError
             ("Failed to add release assets to "
              +:+ ("release/" +:+ Context.branch_name context +:+ "/"
                   +:+ NextRelease.version (Context.nextRelease context))
              +:+ " branch. Not proceeded with release.")
             "EPUSHASSETS" (Some (String_ cause))).
Proof.
  unfold trace_of, completion_of, processRequest.
  destruct (Typed.assets config) as [| asset assets]; cbn; [discriminate |].
  destruct (parse (Typed.repositoryUrl config)) as [url | e]; cbn; [| discriminate].
  destruct (authModificator url (Typed.platform config) (Typed.token config))
    as [authRemote | e]; cbn; [| discriminate].
  destruct (world [] _) as [? | e1]; cbn.
  2: { intros _. eexists _, e1. repeat split. }
  destruct (world [_] _) as [? | e2]; cbn.
  2: { intros _. eexists _, e2. repeat split. }
  destruct (template (Typed.commit config) _) as [message | e]; cbn; [| discriminate].
  destruct (world [_; _] _) as [? | e3]; cbn.
  2: { intros _. eexists _, e3. repeat split. }
  destruct (Typed.dryRun config); cbn.
  all: answer world; try (intros _; eexists _, _; repeat split; fail).
  all: destruct (template (Typed.title config) _) as [title | e]; cbn.
  all: answer world; discriminate.
Qed.

(** X6.  What [processRequest] can throw.  Either the error of git-url-parse
    or of [authModificator], unchanged and before any call is made; or an
    [EPUSHASSETS] error, raised without any request creation, whose cause is
    a failed git command or the commit message template.  Nothing else: a
    failing title template or request creation never makes it throw. *)
Theorem processRequest_throws (context : Context.t) (config : Typed.RequestsConfig)
  (world : World) (error : Exn) :
  completion_of world (processRequest context config) = Throws error →
  (trace_of world (processRequest context config) = []
   ∧ (parse (Typed.repositoryUrl config) = Throws error
      ∨ ∃ url,
          parse (Typed.repositoryUrl config) = Returns url
          ∧ authModificator url (Typed.platform config) (Typed.token config)
            = Throws error))
  ∨ (∃ message cause,
        error = SemanticReleaseError message "EPUSHASSETS" (Some (String_ cause))
        ∧ calls is_createPR (trace_of world (processRequest context config)) = false
        ∧ (git_failure (trace_of world (processRequest context config)) = true
           ∨ template (Typed.commit config)
               (CommitData (Context.branch_name context) (Context.lastRelease context)
                  (Context.nextRelease context))
             = Throws cause)).
Proof.
  unfold trace_of, completion_of, processRequest.
  destruct (Typed.assets config) as [| asset assets]; cbn; [discriminate |].
  destruct (parse (Typed.repositoryUrl config)) as [url | e]; cbn.
  2: { intros [= <-]. left. auto. }
  destruct (authModificator url (Typed.platform config) (Typed.token config))
    as [authRemote | e] eqn:Hauth; cbn.
  2: { intros [= <-]. left. split; [reflexivity |]. right. eauto. }
  intros Hthrown. right. revert Hthrown.
  destruct (world [] _) as [? | e1]; cbn.
  2: { intros [= <-]. eexists _, _. repeat split. now left. }
  destruct (world [_] _) as [? | e2]; cbn.
  2: { intros [= <-]. eexists _, _. repeat split. now left. }
  destruct (template (Typed.commit config) _) as [message | e] eqn:Hcommit; cbn.
  2: { intros [= <-]. eexists _, _. repeat split. now right. }
  destruct (world [_; _] _) as [? | e3]; cbn.
  2: { intros [= <-]. eexists _, _. repeat split. now left. }
  destruct (Typed.dryRun config); cbn.
  all: answer world;
    try (intros [= <-]; eexists _, _; repeat split; now left).
  all: destruct (template (Typed.title config) _) as [title | e]; cbn.
  all: answer world; discriminate.
Qed.

(** X7.  The request that [processRequest] creates.  It is created only after
    all five git commands went through, the push included; it goes from the
    asset branch [release/<branch>/<version>] to the release branch, is sent
    to [baseUrl + apiPathPrefix] with the configured platform and token, and
    its body is the release notes, empty when there are none.  Whatever the
    platform answers, the run then completes normally. *)
Theorem processRequest_request (context : Context.t) (config : Typed.RequestsConfig)
  (world : World) (url : string) (platform : Platform) (token : string)
  (body : Metadata.t) (reply : Reply) :
  In (CreatePR url platform token body, reply)
    (trace_of world (processRequest context config)) →
  url = Typed.baseUrl config +:+ Typed.apiPathPrefix config
  ∧ platform = Typed.platform config
  ∧ token = Typed.token config
  ∧ Metadata.from body
    = "release/" +:+ Context.branch_name context +:+ "/"
      +:+ NextRelease.version (Context.nextRelease context)
  ∧ Metadata.to body = Context.branch_name context
  ∧ Metadata.body body
    = default EmptyString (NextRelease.notes (Context.nextRelease context))
  ∧ git_failure (trace_of world (processRequest context config)) = false
  ∧ length (List.filter (λ entry, is_git entry.1)
              (trace_of world (processRequest context config))) = 5
  ∧ calls (is_git_command "push") (trace_of world (processRequest context config)) = true
  ∧ completion_of world (processRequest context config) = Returns tt.
Proof.
  unfold trace_of, completion_of, processRequest.
  destruct (Typed.assets config) as [| asset assets]; cbn; [intros [] |].
  destruct (parse (Typed.repositoryUrl config)) as [parsed | e]; cbn; [| intros []].
  destruct (authModificator parsed (Typed.platform config) (Typed.token config))
    as [authRemote | e]; cbn; [| intros []].
  destruct (world [] _) as [? | e1]; cbn.
  2: { intros [Hin | []]. discriminate Hin. }
  destruct (world [_] _) as [? | e2]; cbn.
  2: { intros [Hin | [Hin | []]]; discriminate Hin. }
  destruct (template (Typed.commit config) _) as [message | e]; cbn.
  2: { intros [Hin | [Hin | []]]; discriminate Hin. }
  destruct (world [_; _] _) as [? | e3]; cbn.
  2: { intros [Hin | [Hin | [Hin | []]]]; discriminate Hin. }
  destruct (Typed.dryRun config); cbn.
  all: answer world.
  all: try (destruct (template (Typed.title config) _) as [title | e]; cbn; answer world).
  all: intros Hin;
    repeat (destruct Hin as [Hin | Hin]; [try discriminate Hin |]); try contradiction.
  all: injection Hin as <- <- <- <-; repeat split.
Qed.

(** ** createRequests, beyond the specification *)

Lemma createRequests_loop_visits (context : Context.t) (config : Typed.RequestsConfig)
  (url : GitUrl) (world : World) (branches : list string) :
  Typed.dryRun config = false →
  (∀ data, ∃ title, template (Typed.title config) data = Returns title) →
  ∀ past errors,
    ∃ trace recorded,
      run world past (createRequests_loop context config url branches errors)
      = (trace, Returns (errors ++ recorded))
      ∧ request_targets trace = branches
      ∧ request_sources trace = List.map (λ _, Context.branch_name context) branches
      ∧ length recorded = createPR_failures trace
      ∧ length trace = length branches.
Proof.
  intros Hdry Htitle.
  induction branches as [| branch rest IH]; intros past errors; cbn.
  { exists [], []. now rewrite app_nil_r. }
  rewrite Hdry.
  destruct (Htitle (RequestData (Context.branch_name context) (Context.lastRelease context)
                      (Context.nextRelease context) branch)) as [title ->].
  cbn.
  match goal with
  | |- context [world past ?call] =>
      set (request := call); destruct (world past request) as [stdout | e] eqn:Hreply
  end; cbn.
  - destruct (IH (past ++ [(request, Resolved stdout)]) errors)
      as (trace & recorded & Hrun & Htargets & Hsources & Hcount & Hlength).
    rewrite Hrun. exists ((request, Resolved stdout) :: trace), recorded.
    split; [reflexivity |]. unfold request_targets, request_sources, createPR_failures in *.
    cbn. now rewrite Htargets, Hsources, Hcount, Hlength.
  - match goal with
    | |- context [createRequests_loop _ _ _ rest (errors ++ [?err])] => set (error := err)
    end.
    destruct (IH (past ++ [(request, Rejected e)]) (errors ++ [error]))
      as (trace & recorded & Hrun & Htargets & Hsources & Hcount & Hlength).
    rewrite Hrun. exists ((request, Rejected e) :: trace), (error :: recorded).
    rewrite <- app_assoc. split; [reflexivity |].
    unfold request_targets, request_sources, createPR_failures in *.
    cbn. now rewrite Htargets, Hsources, Hcount, Hlength.
Qed.

(** X8.  Outside dry-run mode, with a title template that evaluates,
    [createRequests] asks once for every branch it is given, in order, a
    request from the release branch to that branch, and makes no other call: a
    failed creation does not stop the loop.  It completes normally when no
    creation failed; otherwise the aggregate it throws holds exactly one error
    per failed creation. *)
Theorem createRequests_visits_all (context : Context.t) (config : Typed.RequestsConfig)
  (branches : list string) (world : World) (url : GitUrl) :
  Typed.dryRun config = false →
  parse (Typed.repositoryUrl config) = Returns url →
  (∀ data, ∃ title, template (Typed.title config) data = Returns title) →
  request_targets (trace_of world (createRequests context config branches)) = branches
  ∧ request_sources (trace_of world (createRequests context config branches))
    = List.map (λ _, Context.branch_name context) branches
  ∧ length (trace_of world (createRequests context config branches)) = length branches
  ∧ (createPR_failure (trace_of world (createRequests context config branches)) = false →
     completion_of world (createRequests context config branches) = Returns tt)
  ∧ ∀ error,
      completion_of world (createRequests context config branches) = Throws error →
      ∃ errors,
        error = AggregateError errors
        ∧ length errors
          = createPR_failures (trace_of world (createRequests context config branches)).
Proof.
  intros Hdry Hparse Htitle. unfold trace_of, completion_of, createRequests.
  rewrite Hparse. cbn. change (bind ?p ?f) with (p ≫= f). rewrite run_bind.
  destruct (createRequests_loop_visits context config url world branches Hdry Htitle [] [])
    as (trace & errors & Hrun & Htargets & Hsources & Hcount & Hlength).
  rewrite Hrun. cbn.
  destruct errors as [| error errors]; cbn; rewrite app_nil_r.
  - repeat split; try assumption. intros error. discriminate.
  - repeat split; try assumption.
    + intros Hnone. exfalso. cbn in Hcount.
      unfold createPR_failures, createPR_failure in *.
      destruct (List.filter _ trace) as [| entry entries] eqn:Hfilter; [discriminate |].
      assert (Hentry : In entry (List.filter
                                   (λ entry, is_createPR entry.1 && rejected entry.2) trace))
        by (rewrite Hfilter; now left).
      apply List.filter_In in Hentry as [Hentry Hfailed].
      apply Bool.not_true_iff_false in Hnone. apply Hnone.
      apply existsb_exists. eauto.
    + intros thrown [= <-]. eexists. split; [reflexivity | exact Hcount].
Qed.

Lemma createRequests_loop_logs (context : Context.t) (config : Typed.RequestsConfig)
  (url : GitUrl) (world : World) (branches : list string) :
  Typed.dryRun config = true →
  ∀ past errors,
    ∃ trace,
      run world past (createRequests_loop context config url branches errors)
      = (trace, Returns errors)
      ∧ Forall (λ entry, ∃ data, entry.1 = LoggerLog data) trace
      ∧ length trace = length branches.
Proof.
  intros Hdry. induction branches as [| branch rest IH]; intros past errors; cbn.
  - exists []. repeat split. constructor.
  - rewrite Hdry. cbn.
    match goal with
    | |- context [world past ?call] => set (line := call)
    end.
    destruct (IH (past ++ [(line, world past line)]) errors) as (trace & Hrun & Hlogs & Hlength).
    rewrite Hrun. eexists. split; [reflexivity |]. split.
    + constructor; [now eexists | exact Hlogs].
    + cbn. now rewrite Hlength.
Qed.

(** X9.  In dry-run mode [createRequests] only logs: one line per branch and
    nothing else, so no request is created and no git command is run, and as
    soon as the repository URL parses it completes normally. *)
Theorem createRequests_dryRun_logs (context : Context.t) (config : Typed.RequestsConfig)
  (branches : list string) (world : World) :
  Typed.dryRun config = true →
  Forall (λ entry, ∃ data, entry.1 = LoggerLog data)
    (trace_of world (createRequests context config branches))
  ∧ ∀ url,
      parse (Typed.repositoryUrl config) = Returns url →
      length (trace_of world (createRequests context config branches)) = length branches
      ∧ completion_of world (createRequests context config branches) = Returns tt.
Proof.
  intros Hdry. unfold trace_of, completion_of, createRequests.
  destruct (parse (Typed.repositoryUrl config)) as [url | e]; cbn.
  2: { split; [constructor | intros url; discriminate]. }
  change (bind ?p ?f) with (p ≫= f). rewrite run_bind.
  destruct (createRequests_loop_logs context config url world branches Hdry [] [])
    as (trace & Hrun & Hlogs & Hlength).
  rewrite Hrun. cbn. rewrite app_nil_r. split; [exact Hlogs |].
  intros _ _. now split.
Qed.

Lemma createRequests_loop_template (context : Context.t) (config : Typed.RequestsConfig)
  (url : GitUrl) (world : World) (branches : list string) :
  Typed.dryRun config = false →
  (∀ data, ∃ thrown, template (Typed.title config) data = Throws thrown) →
  ∀ past errors,
    ∃ recorded,
      run world past (createRequests_loop context config url branches errors)
      = ([], Returns (errors ++ recorded))
      ∧ Forall is_EPULLREQUEST recorded
      ∧ length recorded = length branches.
Proof.
  intros Hdry Htitle.
  induction branches as [| branch rest IH]; intros past errors; cbn.
  { exists []. rewrite app_nil_r. repeat split. constructor. }
  rewrite Hdry.
  destruct (Htitle (RequestData (Context.branch_name context) (Context.lastRelease context)
                      (Context.nextRelease context) branch)) as [thrown ->].
  cbn.
  match goal with
  | |- context [createRequests_loop _ _ _ rest (errors ++ [?err])] => set (error := err)
  end.
  destruct (IH past (errors ++ [error])) as (recorded & Hrun & Hall & Hlength).
  rewrite Hrun. exists (error :: recorded). rewrite <- app_assoc.
  split; [reflexivity |]. split.
  - constructor; [now eexists _, _ | exact Hall].
  - cbn. now rewrite Hlength.
Qed.

(** X10.  A title template that does not evaluate is reported like a failed
    creation: outside dry-run mode, [createRequests] then calls nothing, log
    included, and throws an aggregate of one [EPULLREQUEST] error per branch,
    although no request was attempted. *)
Theorem createRequests_title_failure (context : Context.t)
  (config : Typed.RequestsConfig) (branches : list string) (world : World) (url : GitUrl) :
  Typed.dryRun config = false →
  parse (Typed.repositoryUrl config) = Returns url →
  (∀ data, ∃ thrown, template (Typed.title config) data = Throws thrown) →
  branches ≠ [] →
  trace_of world (createRequests context config branches) = []
  ∧ ∃ errors,
      completion_of world (createRequests context config branches)
      = Throws (AggregateError errors)
      ∧ Forall is_EPULLREQUEST errors
      ∧ length errors = length branches.
Proof.
  intros Hdry Hparse Htitle Hbranches. unfold trace_of, completion_of, createRequests.
  rewrite Hparse. cbn. change (bind ?p ?f) with (p ≫= f). rewrite run_bind.
  destruct (createRequests_loop_template context config url world branches Hdry Htitle [] [])
    as (errors & Hrun & Hall & Hlength).
  rewrite Hrun. cbn.
  destruct errors as [| error errors]; cbn.
  - destruct branches; [congruence | discriminate Hlength].
  - split; [reflexivity |]. exists (error :: errors). now repeat split.
Qed.

(** ** verifyConfig, beyond the specification *)

Lemma readable_false (value : JsValue) :
  readable Key.candidates value = false →
  ∃ items, value = JArray items ∧ existsb Js.nullish items = true.
Proof.
  destruct value as [| | b | n | s | items | props]; try discriminate. cbn.
  rewrite forallb_negb_existsb. intros Hnull%negb_false_iff. eauto.
Qed.

(** X11.  [verifyConfig] ends with the engine's [TypeError], and not with an
    aggregate of configuration errors, exactly when [candidates] is an array
    holding a [null] or [undefined] entry; the errors of the other fields are
    then lost. *)
Theorem verifyConfig_TypeError (config : Raw.RequestsConfig) :
  verifyConfig config = Throws TypeError
  ↔ ∃ items, Raw.candidates config = JArray items ∧ existsb Js.nullish items = true.
Proof.
  split.
  - intros Hthrown.
    destruct (readable Key.candidates (Raw.candidates config)) eqn:Hreadable.
    + rewrite (verifyConfig_expected config Hreadable) in Hthrown.
      destruct (0 <? length (expected_errors config))%nat; discriminate Hthrown.
    + now apply readable_false.
  - intros (items & Hcandidates & Hnull).
    exact (verifyConfig_null_candidate config items Hcandidates Hnull).
Qed.

Lemma getConfigError_code (key : Key.t) (value : JsValue) :
  Exn_code (getConfigError key value) = error_code key.
Proof. now destruct key. Qed.

Lemma error_code_inj (key key' : Key.t) : error_code key = error_code key' → key = key'.
Proof. destruct key, key'; intros Hcode; try reflexivity; discriminate Hcode. Qed.

Lemma NoDup_map_filter {A B : Type} (g : A → B) (f : A → bool) (l : list A) :
  NoDup (List.map g l) → NoDup (List.map g (List.filter f l)).
Proof.
  induction l as [| x l IH]; cbn; [constructor |].
  intros Hnodup. apply NoDup_cons in Hnodup as [Hx Hl].
  destruct (f x); cbn; [| now apply IH]. constructor; [| now apply IH].
  intros Hin. apply Hx. apply list_elem_of_In, List.in_map_iff in Hin as (y & Hy & Hin).
  apply List.filter_In in Hin as [Hin _].
  apply list_elem_of_In, List.in_map_iff. eauto.
Qed.

(** X12.  The aggregate that [verifyConfig] throws reports each field at most
    once, however many of its validations fail: it holds between one and
    eleven errors, their codes are pairwise distinct, and each is the
    descriptive error of a field of the configuration with that field's
    value. *)
Theorem verifyConfig_one_error_per_field (config : Raw.RequestsConfig) (errors : list Exn) :
  verifyConfig config = Throws (AggregateError errors) →
  (1 ≤ length errors ≤ 11)%nat
  ∧ NoDup (Exn_code <$> errors)
  ∧ ∀ error, In error errors → ∃ key, error = getConfigError key (field config key).
Proof.
  intros Hthrown.
  destruct (readable Key.candidates (Raw.candidates config)) eqn:Hreadable.
  2: { apply readable_false in Hreadable as (items & Hcandidates & Hnull).
       rewrite (verifyConfig_null_candidate config items Hcandidates Hnull) in Hthrown.
       discriminate Hthrown. }
  rewrite (verifyConfig_expected config Hreadable) in Hthrown.
  destruct (0 <? length (expected_errors config))%nat eqn:Hsome; [| discriminate Hthrown].
  injection Hthrown as <-. apply Nat.ltb_lt in Hsome. unfold expected_errors in *.
  split; [| split].
  - split; [lia |]. rewrite length_map.
    pose proof (filter_length_le (λ entry, invalid entry.1 entry.2) (Object_entries config)).
    cbn in *. lia.
  - change (Exn_code <$> ?l) with (List.map Exn_code l). rewrite List.map_map.
    erewrite List.map_ext; [| intros entry; apply getConfigError_code].
    apply NoDup_map_filter. cbn.
    repeat (constructor; [rewrite ?elem_of_cons, elem_of_nil; intuition discriminate |]).
    constructor.
  - intros error Hin. apply List.in_map_iff in Hin as ([key value] & <- & Hin).
    apply List.filter_In in Hin as [Hin _]. exists key. cbn in Hin |- *.
    repeat (destruct Hin as [Hin | Hin]; [now injection Hin as <- <- |]).
    contradiction.
Qed.

(** X13.  The report of [verifyConfig] does not carry the token: two
    configurations that differ only in their token, both tokens being
    acceptable or both not, get the very same outcome. *)
Theorem verifyConfig_hides_token (config : Raw.RequestsConfig) (token token' : JsValue) :
  non_empty_string token = non_empty_string token' →
  verifyConfig (with_token token config) = verifyConfig (with_token token' config).
Proof.
  intros Hsame.
  destruct (readable Key.candidates (Raw.candidates config)) eqn:Hreadable.
  - rewrite !verifyConfig_expected by exact Hreadable.
    assert (Herrors :
      expected_errors (with_token token config) = expected_errors (with_token token' config)).
    { unfold expected_errors.
      change (Object_entries (with_token token config))
        with (removelast (Object_entries config) ++ [(Key.token, token)]).
      change (Object_entries (with_token token' config))
        with (removelast (Object_entries config) ++ [(Key.token, token')]).
      rewrite !List.filter_app, !List.map_app. f_equal. cbn.
      rewrite Hsame. now destruct (non_empty_string token'). }
    now rewrite Herrors.
  - apply readable_false in Hreadable as (items & Hcandidates & Hnull).
    rewrite !(verifyConfig_null_candidate _ items) by assumption. reflexivity.
Qed.

(** X14.  The code of a configuration error identifies the field: two errors
    built by [getConfigError] have the same code only for the same key.  And
    the errors of [token], [debug], [dryRun] and [repositoryUrl] do not depend
    on the value that was refused. *)
Theorem getConfigError_identifies (key key' : Key.t) (value value' : JsValue) :
  (Exn_code (getConfigError key value) = Exn_code (getConfigError key' value') →
   key = key')
  ∧ (In key [Key.token; Key.debug; Key.dryRun; Key.repositoryUrl] →
     getConfigError key value = getConfigError key value').
Proof.
  split.
  - rewrite !getConfigError_code. apply error_code_inj.
  - intros [<- | [<- | [<- | [<- | []]]]]; reflexivity.
Qed.

(** ** ensureDefault, beyond the specification *)

Lemma coalesce_valued (value fallback : JsValue) :
  Js.nullish fallback = false → Js.nullish (value ?? fallback) = false.
Proof. unfold Js.coalesce. now destruct value. Qed.

Lemma coalesce_idempotent (value fallback fallback' : JsValue) :
  Js.nullish fallback = false → (value ?? fallback) ?? fallback' = value ?? fallback.
Proof. unfold Js.coalesce. destruct value; try reflexivity; now destruct fallback. Qed.

Lemma truthy_valued (value : JsValue) : Js.truthy value = true → Js.nullish value = false.
Proof. now destruct value. Qed.

Lemma select_platform_url (env : option Env) (table : list (Platform * list string * string))
  (platform : Platform) (url prefix : string) :
  select_platform env table = Some (platform, url, prefix) →
  Str.is_empty url = false ∧ In platform (List.map (λ row, row.1.1) table).
Proof.
  induction table as [| [[p names] pre] table IH]; cbn; [discriminate |].
  destruct (first_set env names) as [found |].
  - destruct (Str.is_empty found) eqn:Hempty.
    + intros Hrest. destruct (IH Hrest). auto.
    + intros [= <- <- <-]. auto.
  - intros Hrest. destruct (IH Hrest). auto.
Qed.

(** The resolved triple never holds [null] or [undefined], and its base URL
    is truthy exactly when some base URL was found. *)
Lemma resolve_by_priority_valued (config : Raw.RequestsConfig) (env : option Env) :
  Js.nullish (resolve_by_priority config env).1.2 = false
  ∧ Js.nullish (resolve_by_priority config env).2 = false
  ∧ (Js.truthy (resolve_by_priority config env).1.2 = false →
     resolve_by_priority config env = (NULL, JString EmptyString, JString EmptyString)
     ∧ Js.truthy (Raw.baseUrl config) = false
     ∧ select_platform env platform_table = None).
Proof.
  unfold resolve_by_priority.
  destruct (Js.truthy (Raw.baseUrl config)) eqn:Hbase.
  - cbn [fst snd]. rewrite Hbase. split; [now apply truthy_valued |].
    split; [now apply coalesce_valued | discriminate].
  - destruct (select_platform env platform_table) as [[[platform url] prefix] |] eqn:Hselect;
      cbn [fst snd].
    + apply select_platform_url in Hselect as [Hurl _].
      destruct url; [discriminate Hurl |].
      split; [reflexivity |]. split; [now apply coalesce_valued | discriminate].
    + auto.
Qed.

(** X15.  [ensureDefault] leaves no field without a value: whatever the
    options and the environment, none of the eleven properties of the
    configuration it returns is [null] or [undefined]. *)
Theorem ensureDefault_valued (config : Raw.RequestsConfig) (env : option Env)
  (key : Key.t) :
  Js.nullish (field (ensureDefault config env) key) = false.
Proof.
  unfold ensureDefault. rewrite getURLs_by_priority.
  destruct (resolve_by_priority_valued config env) as (Hbase & Hprefix & _).
  destruct (resolve_by_priority config env) as [[platform baseUrl] apiPathPrefix].
  cbn in Hbase, Hprefix.
  destruct key; cbn [field Raw.apiPathPrefix Raw.assets Raw.baseUrl Raw.candidates
    Raw.commit Raw.debug Raw.dryRun Raw.platform Raw.repositoryUrl Raw.title Raw.token];
    try assumption; repeat (apply coalesce_valued); reflexivity.
Qed.

Lemma ensureDefault_fields (config : Raw.RequestsConfig) (env : option Env) :
  ensureDefault config env
  = {| Raw.apiPathPrefix := (resolve_by_priority config env).2;
       Raw.assets := Raw.assets config ?? JArray [];
       Raw.baseUrl := (resolve_by_priority config env).1.2;
       Raw.candidates := Raw.candidates config ?? JArray [];
       Raw.commit := Raw.commit config ?? JString defaultCommit;
       Raw.debug := Raw.debug config ?? JBoolean false;
       Raw.dryRun := Raw.dryRun config ?? JBoolean false;
       Raw.platform :=
         Raw.platform config
         ?? JString (Platform_value (resolve_by_priority config env).1.1);
       Raw.repositoryUrl := Raw.repositoryUrl config ?? JString EmptyString;
       Raw.title := Raw.title config ?? JString defaultTitle;
       Raw.token := Raw.token (ensureDefault config env) |}.
Proof.
  unfold ensureDefault. rewrite getURLs_by_priority.
  now destruct (resolve_by_priority config env) as [[platform baseUrl] apiPathPrefix].
Qed.

Lemma resolve_by_priority_again (config : Raw.RequestsConfig) (env : option Env) :
  (resolve_by_priority (ensureDefault config env) env).1.2
  = (resolve_by_priority config env).1.2
  ∧ (resolve_by_priority (ensureDefault config env) env).2
    = (resolve_by_priority config env).2.
Proof.
  rewrite ensureDefault_fields.
  destruct (resolve_by_priority_valued config env) as (Hbase & Hprefix & Hnone).
  set (resolved := resolve_by_priority config env) in *.
  unfold resolve_by_priority. cbn [Raw.baseUrl Raw.apiPathPrefix].
  destruct (Js.truthy resolved.1.2) eqn:Htruthy; cbn [fst snd].
  - split; [reflexivity |]. unfold Js.coalesce. now rewrite Hprefix.
  - destruct (Hnone eq_refl) as (-> & _ & ->). now split.
Qed.

(** X16.  [ensureDefault] is idempotent in a given environment: resolving an
    already resolved configuration again, as the test suite does, changes
    nothing. *)
Theorem ensureDefault_idempotent (config : Raw.RequestsConfig) (env : option Env) :
  ensureDefault (ensureDefault config env) env = ensureDefault config env.
Proof.
  rewrite (ensureDefault_fields (ensureDefault config env) env).
  destruct (resolve_by_priority_again config env) as [-> ->].
  assert (Htoken :
    Raw.token (ensureDefault (ensureDefault config env) env)
    = Raw.token (ensureDefault config env)).
  { unfold ensureDefault.
    now destruct (getURLs _ env) as [[? ?] ?], (getURLs config env) as [[? ?] ?]. }
  rewrite Htoken.
  etransitivity; [| symmetry; apply ensureDefault_fields].
  f_equal; rewrite ensureDefault_fields;
    cbn [Raw.apiPathPrefix Raw.assets Raw.baseUrl Raw.candidates Raw.commit Raw.debug
      Raw.dryRun Raw.platform Raw.repositoryUrl Raw.title Raw.token];
    apply coalesce_idempotent; reflexivity.
Qed.

Lemma token_coalesce (env : option Env) :
  env ?. "BB_TOKEN" ?? env ?. "BITBUCKET_TOKEN" ?? env ?. "GITEA_TOKEN" ?? env ?. "GH_TOKEN"
  ?? env ?. "GITHUB_TOKEN" ?? env ?. "GL_TOKEN" ?? env ?. "GITLAB_TOKEN" ?? JString EmptyString
  = JString (default EmptyString (first_set env token_variables)).
Proof.
  rewrite !optional_get_variable. cbn.
  destruct (variable env "BB_TOKEN"); cbn; [reflexivity |].
  destruct (variable env "BITBUCKET_TOKEN"); cbn; [reflexivity |].
  destruct (variable env "GITEA_TOKEN"); cbn; [reflexivity |].
  destruct (variable env "GH_TOKEN"); cbn; [reflexivity |].
  destruct (variable env "GITHUB_TOKEN"); cbn; [reflexivity |].
  destruct (variable env "GL_TOKEN"); cbn; [reflexivity |].
  destruct (variable env "GITLAB_TOKEN"); reflexivity.
Qed.

Lemma ensureDefault_token_field (config : Raw.RequestsConfig) (env : option Env) :
  field (ensureDefault config env) Key.token
  = JString (default EmptyString (first_set env token_variables)).
Proof.
  unfold ensureDefault. destruct (getURLs config env) as [[platform baseUrl] apiPathPrefix].
  apply token_coalesce.
Qed.

Lemma invalid_field_rejected (config : Raw.RequestsConfig) (key : Key.t) :
  invalid key (field config key) = true →
  In (getConfigError key (field config key)) (expected_errors config)
  ∧ verifyConfig config ≠ Returns tt.
Proof.
  intros Hinvalid.
  assert (Hin : In (getConfigError key (field config key)) (expected_errors config)).
  { unfold expected_errors.
    apply (List.in_map (λ entry, getConfigError entry.1 entry.2) _ (key, field config key)).
    apply List.filter_In. split; [destruct key; cbn; tauto | exact Hinvalid]. }
  split; [exact Hin |]. intros Hvalid.
  rewrite (verifyConfig_expected config (verifyConfig_readable config Hvalid)) in Hvalid.
  destruct (expected_errors config); [contradiction | discriminate Hvalid].
Qed.


(** X18.  Without a token in the environment nothing passes: when none of the
    seven token variables is set, or the first one that is set is empty,
    [verifyConfig] rejects what [ensureDefault] resolves, whatever the
    options are, a [token] option included, and the token error is among the
    configuration errors. *)
Theorem token_required (config : Raw.RequestsConfig) (env : option Env) :
  default EmptyString (first_set env token_variables) = EmptyString →
  In (getConfigError Key.token (JString EmptyString))
    (expected_errors (ensureDefault config env))
  ∧ verifyConfig (ensureDefault config env) ≠ Returns tt.
Proof.
  intros Htoken.
  pose proof (ensureDefault_token_field config env) as Hfield. rewrite Htoken in Hfield.
  rewrite <- Hfield. apply invalid_field_rejected. now rewrite Hfield.
Qed.

(** X19.  An explicit base URL needs an explicit platform: when the options
    give a non-empty [baseUrl] and no [platform], the resolved platform is the
    empty one and [verifyConfig] rejects the configuration with the platform
    error, whatever the environment holds. *)
Theorem baseUrl_requires_platform (config : Raw.RequestsConfig) (env : option Env) :
  Js.truthy (Raw.baseUrl config) = true →
  Js.nullish (Raw.platform config) = true →
  Raw.platform (ensureDefault config env) = JString EmptyString
  ∧ In (getConfigError Key.platform (JString EmptyString))
      (expected_errors (ensureDefault config env))
  ∧ verifyConfig (ensureDefault config env) ≠ Returns tt.
Proof.
  intros Hbase Hplatform.
  assert (Hfield : field (ensureDefault config env) Key.platform = JString EmptyString).
  { rewrite ensureDefault_fields. unfold resolve_by_priority. rewrite Hbase.
    cbn. unfold Js.coalesce. now rewrite Hplatform. }
  split; [exact Hfield |].
  rewrite <- Hfield. apply invalid_field_rejected. now rewrite Hfield.
Qed.

(** ** The hooks, beyond the specification *)

(** X21.  Without an [assets] option [prepare] does nothing: once the
    configuration is verified, the run is empty, log included, and completes
    normally, since [ensureDefault] resolves the assets to the empty list. *)
Theorem prepare_without_assets (globalConfig : Raw.RequestsConfig) (context : Context.t)
  (world : World) :
  Js.nullish (Raw.assets globalConfig) = true →
  verifyConfig (ensureDefault globalConfig (Context.env context)) = Returns tt →
  run world [] (prepare globalConfig context) = ([], Returns tt).
Proof.
  intros Hassets Hvalid. unfold prepare, verifyConditions. rewrite Hvalid. cbn.
  assert (Hnone :
    Typed.assets (as_RequestsConfig (ensureDefault globalConfig (Context.env context))) = []).
  { rewrite ensureDefault_fields. cbn. unfold Js.coalesce. now rewrite Hassets. }
  unfold unawaited, processRequest. now rewrite Hnone.
Qed.

Lemma getBranches_reads_only (context : Context.t) (config : Typed.RequestsConfig)
  (world : World) :
  forallb (λ entry, reads_only entry.1) (trace_of world (getBranches context config)) = true.
Proof.
  unfold trace_of, getBranches.
  destruct (appropriates _ _) as [| candidate rest]; cbn; [reflexivity |].
  destruct (world [_] _); cbn; [| reflexivity].
  destruct (world [_; _] _); cbn; [| reflexivity].
  now destruct (List.filter _ (List.filter _ _)).
Qed.

Lemma calls_false_forallb (p q : Call → bool) (trace : Trace) :
  (∀ call, p call = false → q call = true) →
  calls p trace = false → forallb (λ entry, q entry.1) trace = true.
Proof.
  intros Hpq. unfold calls. induction trace as [| entry trace IH]; cbn; [reflexivity |].
  intros [Hentry Htrace]%orb_false_elim. now rewrite (Hpq _ Hentry), (IH Htrace).
Qed.

(** The run of [success] on a verified configuration: the run of
    [getBranches], followed by the run of [createRequests] when branches were
    found; the handler of the hook adds no call. *)
Lemma success_run (globalConfig : Raw.RequestsConfig) (context : Context.t)
  (world : World) (config : Raw.RequestsConfig) :
  verifyConditions globalConfig context = Returns config →
  ∃ first second,
    trace_of world (success globalConfig context) = first ++ second
    ∧ first = trace_of world (getBranches context (as_RequestsConfig config))
    ∧ (second = []
       ∨ ∃ branches,
           second
           = (run world first
                (createRequests context (as_RequestsConfig config) branches)).1).
Proof.
  intros Hverified. unfold trace_of, success. rewrite Hverified. cbn.
  rewrite run_try_catch. change (bind ?p ?f) with (p ≫= f). rewrite run_bind.
  destruct (run world [] (getBranches context (as_RequestsConfig config)))
    as [first [branches | e]] eqn:Hfirst; cbn.
  - destruct (run world first (createRequests context (as_RequestsConfig config) branches))
      as [second [[] | e]] eqn:Hsecond; cbn.
    + exists first, second. split; [reflexivity |]. split; [reflexivity |].
      right. exists branches. now rewrite Hsecond.
    + exists first, second.
      destruct (instanceof_AggregateError e || instanceof_SemanticReleaseError e); cbn;
        rewrite app_nil_r; (split; [reflexivity |]); (split; [reflexivity |]);
        right; exists branches; now rewrite Hsecond.
  - exists first, [].
    destruct (instanceof_AggregateError e || instanceof_SemanticReleaseError e); cbn;
      auto.
Qed.

(** X22.  [success] never changes a repository: the only git commands of its
    runs are [git fetch] and [git ls-remote], so it never checks out, adds,
    commits or pushes. *)
Theorem success_reads_only (globalConfig : Raw.RequestsConfig) (context : Context.t)
  (world : World) :
  forallb (λ entry, reads_only entry.1) (trace_of world (success globalConfig context))
  = true.
Proof.
  destruct (verifyConditions globalConfig context) as [config | e] eqn:Hverified.
  2: { unfold trace_of, success. now rewrite Hverified. }
  destruct (success_run globalConfig context world config Hverified)
    as (first & second & -> & -> & Hsecond).
  rewrite forallb_app, getBranches_reads_only. cbn.
  destruct Hsecond as [-> | (branches & ->)]; [reflexivity |].
  destruct (createRequests_run context (as_RequestsConfig config) branches world
              (trace_of world (getBranches context (as_RequestsConfig config))))
    as (trace & completion & Hrun & Hgit & _).
  rewrite Hrun. cbn [fst].
  apply (calls_false_forallb is_git); [| exact Hgit].
  intros call Hcall. unfold reads_only. now rewrite Hcall.
Qed.

(** X23.  Dry-run mode at the level of the hook: when the orchestrator passes
    [dryRun: true], no run of [success] creates a request. *)
Theorem success_dryRun (globalConfig : Raw.RequestsConfig) (context : Context.t)
  (world : World) :
  Raw.dryRun globalConfig = JBoolean true →
  calls is_createPR (trace_of world (success globalConfig context)) = false.
Proof.
  intros Hdry.
  destruct (verifyConditions globalConfig context) as [config | e] eqn:Hverified.
  2: { unfold trace_of, success. now rewrite Hverified. }
  assert (Hconfig : Typed.dryRun (as_RequestsConfig config) = true).
  { unfold verifyConditions in Hverified.
    destruct (verifyConfig _); [| discriminate Hverified]. injection Hverified as <-.
    rewrite ensureDefault_fields. cbn. now rewrite Hdry. }
  destruct (success_run globalConfig context world config Hverified)
    as (first & second & -> & -> & Hsecond).
  rewrite calls_app, getBranches_no_createPR. cbn.
  destruct Hsecond as [-> | (branches & ->)]; [reflexivity |].
  unfold createRequests.
  destruct (parse (Typed.repositoryUrl (as_RequestsConfig config))) as [url | e]; cbn;
    [| reflexivity].
  change (bind ?p ?f) with (p ≫= f). rewrite run_bind.
  destruct (createRequests_loop_dryRun context (as_RequestsConfig config) url world branches
              Hconfig (trace_of world (getBranches context (as_RequestsConfig config))) [])
    as (trace & Hrun & Hnone & _).
  rewrite Hrun. cbn. now rewrite app_nil_r.
Qed.

(** X24.  What [success] throws once the configuration is verified is always
    an error the orchestrator accepts: an instance of the run time's
    [AggregateError] or a [SemanticReleaseError].  An error of that kind
    thrown by [getBranches] or [createRequests] is thrown again unchanged;
    any other, the plain error of a failed [git fetch] for one, reaches the
    caller wrapped in a [SemanticReleaseError] with code [ERCPULLREQUESTS]
    that carries it as details. *)
Theorem success_throws (globalConfig : Raw.RequestsConfig) (context : Context.t)
  (world : World) (config : Raw.RequestsConfig) (error : Exn) :
  verifyConditions globalConfig context = Returns config →
  completion_of world (success globalConfig context) = Throws error →
  (instanceof_AggregateError error = true ∨ instanceof_SemanticReleaseError error = true)
  ∧ ∃ cause,
      (run world []
         (getBranches context (as_RequestsConfig config) ≫=
            createRequests context (as_RequestsConfig config))).2
      = Throws cause
      ∧ (if instanceof_AggregateError cause || instanceof_SemanticReleaseError cause
         then error = cause
         else error
              = SemanticReleaseError "Failed to create release candidates pull requests."
                  "ERCPULLREQUESTS" (Some (String_ cause))).
Proof.
  intros Hverified. unfold completion_of, success. rewrite Hverified. cbn.
  rewrite run_try_catch. change (bind ?p ?f) with (p ≫= f).
  destruct (run world [] _) as [trace [[] | e]]; cbn; [discriminate |].
  destruct (instanceof_AggregateError e) eqn:Haggregate; cbn.
  - intros [= <-]. split; [now left |]. exists e. now rewrite Haggregate.
  - destruct (instanceof_SemanticReleaseError e) eqn:Hsemantic; cbn.
    + intros [= <-]. split; [now right |]. exists e. now rewrite Haggregate, Hsemantic.
    + intros [= <-]. split; [now right |]. exists e. now rewrite Haggregate, Hsemantic.
Qed.

End Plugin.

(** * The code on concrete inputs *)

Local Abbreviation processRequest' :=
  (processRequest Stub.template Stub.GitUrl Stub.parse Stub.name Stub.owner
     Stub.authModificator).
Local Abbreviation getBranches' := (getBranches Stub.JSON_stringify Stub.String_match).
Local Abbreviation createRequests' :=
  (createRequests Stub.template Stub.GitUrl Stub.parse Stub.name Stub.owner).
Local Abbreviation prepare' :=
  (prepare Stub.JSON_stringify Stub.template Stub.GitUrl Stub.parse Stub.name Stub.owner
     Stub.authModificator).
Local Abbreviation success' :=
  (success Stub.JSON_stringify Stub.String_match Stub.template Stub.GitUrl Stub.parse
     Stub.name Stub.owner Stub.instanceof_AggregateError).

(** C9 at a configuration without assets. *)
Lemma processRequest_without_assets_witness :
  Typed.assets (Stub.with_assets [] Stub.config) = []
  ∧ processRequest' (Stub.getContext "main") (Stub.with_assets [] Stub.config) = Ret tt
  ∧ ∀ world past,
      run world past (processRequest' (Stub.getContext "main")
                        (Stub.with_assets [] Stub.config))
      = ([], Returns tt).
Proof.
  split; [reflexivity |].
  apply (processRequest_without_assets Stub.template Stub.GitUrl Stub.parse Stub.name
           Stub.owner Stub.authModificator (Stub.getContext "main")
           (Stub.with_assets [] Stub.config)).
  reflexivity.
Defined.

(** C6 in a world where [git push] fails. *)
Lemma processRequest_asset_branch_failure_witness :
  git_failure
    (trace_of (Stub.fails_on (is_git_command "push"))
       (processRequest' (Stub.getContext "main") Stub.config)) = true
  ∧ (∃ message details,
        completion_of (Stub.fails_on (is_git_command "push"))
          (processRequest' (Stub.getContext "main") Stub.config)
        = Throws (SemanticReleaseError message "EPUSHASSETS" details))
  ∧ calls is_createPR
      (trace_of (Stub.fails_on (is_git_command "push"))
         (processRequest' (Stub.getContext "main") Stub.config)) = false.
Proof.
  split; [vm_compute; reflexivity |].
  apply (processRequest_asset_branch_failure Stub.template Stub.GitUrl Stub.parse Stub.name
           Stub.owner Stub.authModificator (Stub.getContext "main") Stub.config
           (Stub.fails_on (is_git_command "push"))).
  vm_compute; reflexivity.
Defined.




(** C1: in dry-run mode, with every command succeeding, [processRequest]
    calls the request creation API. *)
Lemma processRequest_dryRun_creates_request_witness :
  Typed.dryRun (Stub.with_dryRun Stub.config) = true
  ∧ pushes_dry
      (trace_of Stub.succeeds
         (processRequest' (Stub.getContext "main") (Stub.with_dryRun Stub.config))) = true
  ∧ calls is_createPR
      (trace_of Stub.succeeds
         (processRequest' (Stub.getContext "main") (Stub.with_dryRun Stub.config))) = true.
Proof.
  split; [reflexivity |]. split; [vm_compute; reflexivity |].
  apply (processRequest_dryRun_creates_request Stub.template Stub.GitUrl Stub.parse
           Stub.name Stub.owner Stub.authModificator (Stub.getContext "main")
           (Stub.with_dryRun Stub.config) Stub.succeeds).
  - reflexivity.
  - vm_compute; reflexivity.
  - vm_compute; reflexivity.
  - intros data. exists (Typed.title (Stub.with_dryRun Stub.config)). reflexivity.
Defined.

(** C2, as stated, fails for the fan-out requests: the failure of the one
    request of this run is thrown to the caller of [createRequests]. *)
Lemma createRequests_failure_thrown :
  createPR_failure
    (trace_of (Stub.fails_on is_createPR)
       (createRequests' (Stub.getContext "main") Stub.config ["develop"])) = true
  ∧ completion_of (Stub.fails_on is_createPR)
      (createRequests' (Stub.getContext "main") Stub.config ["develop"])
    = Throws
        (AggregateError
           [SemanticReleaseError "Failed to create pull request from 'main' to 'develop'."
              "EPULLREQUEST" (Some (String_ (JsError "an error message")))]).
Proof. vm_compute. split; reflexivity. Qed.

(** C2, amended, in worlds where every request creation fails. *)
Lemma request_creation_failures_witness :
  (createPR_failure
     (trace_of (Stub.fails_on is_createPR)
        (processRequest' (Stub.getContext "main") Stub.config)) = true
   ∧ completion_of (Stub.fails_on is_createPR)
       (processRequest' (Stub.getContext "main") Stub.config) = Returns tt)
  ∧ (createPR_failure
       (trace_of (Stub.fails_on is_createPR)
          (createRequests' (Stub.getContext "main") Stub.config ["develop"; "staging"]))
     = true
     ∧ ∃ errors,
         completion_of (Stub.fails_on is_createPR)
           (createRequests' (Stub.getContext "main") Stub.config ["develop"; "staging"])
         = Throws (AggregateError errors)
         ∧ Forall is_EPULLREQUEST errors)
  ∧ (createPR_failure
       (trace_of Stub.refuses_requests (success' Stub.options_fanout Stub.context_main))
     = true
     ∧ ∃ error,
         completion_of Stub.refuses_requests (success' Stub.options_fanout Stub.context_main)
         = Throws error).
Proof.
  split; [| split].
  - split; [vm_compute; reflexivity |].
    apply (request_creation_failures Stub.JSON_stringify Stub.String_match Stub.template
             Stub.GitUrl Stub.parse Stub.name Stub.owner Stub.authModificator
             Stub.instanceof_AggregateError (Stub.getContext "main") Stub.config
             Stub.options_fanout ["develop"; "staging"] (Stub.fails_on is_createPR)).
    vm_compute; reflexivity.
  - split; [vm_compute; reflexivity |].
    destruct (request_creation_failures Stub.JSON_stringify Stub.String_match Stub.template
                Stub.GitUrl Stub.parse Stub.name Stub.owner Stub.authModificator
                Stub.instanceof_AggregateError (Stub.getContext "main") Stub.config
                Stub.options_fanout ["develop"; "staging"] (Stub.fails_on is_createPR))
      as (_ & Hfanout & _).
    destruct Hfanout as (errors & Hthrown & Hcodes & _); [vm_compute; reflexivity |].
    exists errors. split; [exact Hthrown | exact Hcodes].
  - split; [vm_compute; reflexivity |].
    apply (request_creation_failures Stub.JSON_stringify Stub.String_match Stub.template
             Stub.GitUrl Stub.parse Stub.name Stub.owner Stub.authModificator
             Stub.instanceof_AggregateError Stub.context_main Stub.config
             Stub.options_fanout [] Stub.refuses_requests).
    vm_compute; reflexivity.
Defined.

(** The same run of [success], in full: nothing in the entry module makes the
    error of [createRequests] an instance of the run time's [AggregateError]
    in this world, so it is wrapped. *)
Example success_fanout_failure :
  completion_of Stub.refuses_requests (success' Stub.options_fanout Stub.context_main)
  = Throws
      (SemanticReleaseError "Failed to create release candidates pull requests."
         "ERCPULLREQUESTS"
         (Some
            (String_
               (AggregateError
                  [SemanticReleaseError
                     "Failed to create pull request from 'main' to 'develop'."
                     "EPULLREQUEST" (Some (String_ (JsError "an error message")));
                   SemanticReleaseError
                     "Failed to create pull request from 'main' to 'staging'."
                     "EPULLREQUEST" (Some (String_ (JsError "an error message")))])))).
Proof. vm_compute. reflexivity. Qed.

(** [prepare] on a run whose push fails: [processRequest] throws
    [EPUSHASSETS], yet [prepare] itself completes normally. *)
Example prepare_drops_rejection :
  git_failure
    (trace_of (Stub.fails_on (is_git_command "push"))
       (prepare' Stub.options_complete Stub.context_main)) = true
  ∧ completion_of (Stub.fails_on (is_git_command "push"))
      (prepare' Stub.options_complete Stub.context_main) = Returns tt.
Proof. vm_compute. split; reflexivity. Qed.

(** C3, as stated, fails twice.  When a prefix is configured but no base
    URL is found, the configured prefix overrides nothing: the resolved prefix
    is empty.  And a [GH_URL] that is set to the empty string is the first
    variable that is set, yet it selects nothing and hides [GITHUB_URL]. *)
Lemma ensureDefault_not_as_claimed :
  (getURLs Stub.options_apiPathPrefix (Some ∅)
   = (NULL, JString EmptyString, JString EmptyString)
   ∧ claimed_resolution Stub.options_apiPathPrefix (Some ∅)
     = (NULL, JString EmptyString, JString "/api/v3")
   ∧ Raw.apiPathPrefix (ensureDefault Stub.options_apiPathPrefix (Some ∅))
     = JString EmptyString)
  ∧ (getURLs Raw.empty
       (Some {[ "GH_URL" := EmptyString; "GITHUB_URL" := "https://example.com" ]})
     = (NULL, JString EmptyString, JString EmptyString)
     ∧ claimed_resolution Raw.empty
         (Some {[ "GH_URL" := EmptyString; "GITHUB_URL" := "https://example.com" ]})
       = (GITHUB, JString EmptyString, JString EmptyString)).
Proof. vm_compute. repeat split. Qed.

(** C3, amended, on the input of the test [should be fine with gitlab ci
    server url]. *)
Lemma ensureDefault_resolution_witness :
  Forall
    (λ name, variable (Some {[ "CI_SERVER_URL" := "some value" ]}) name ≠ Some EmptyString)
    url_variables
  ∧ first_row (Some {[ "CI_SERVER_URL" := "some value" ]}) url_table ≠ None
  ∧ getURLs Stub.options_apiPathPrefix (Some {[ "CI_SERVER_URL" := "some value" ]})
    = claimed_resolution Stub.options_apiPathPrefix (Some {[ "CI_SERVER_URL" := "some value" ]})
  ∧ claimed_resolution Stub.options_apiPathPrefix (Some {[ "CI_SERVER_URL" := "some value" ]})
    = (GITLAB, JString "some value", JString "/api/v3").
Proof.
  assert (Hset :
    Forall
      (λ name, variable (Some {[ "CI_SERVER_URL" := "some value" ]}) name ≠ Some EmptyString)
      url_variables).
  { repeat constructor; vm_compute; discriminate. }
  assert (Hfound : first_row (Some {[ "CI_SERVER_URL" := "some value" ]}) url_table ≠ None).
  { vm_compute. discriminate. }
  split; [exact Hset |]. split; [exact Hfound |]. split; [| vm_compute; reflexivity].
  exact (proj1 (ensureDefault_resolution Stub.options_apiPathPrefix
                  (Some {[ "CI_SERVER_URL" := "some value" ]}) Hset
                  (or_intror (or_introl Hfound)))).
Defined.

(** A configured platform overrides the inferred one. *)
Example ensureDefault_configured_platform :
  Raw.platform (ensureDefault Stub.options_github (Some {[ "GITLAB_URL" := "some value" ]}))
  = JString "github".
Proof. vm_compute. reflexivity. Qed.

(** The tests of [ensureDefault]. *)
Example ensureDefault_without_inputs :
  ensureDefault Raw.empty None
  = {| Raw.apiPathPrefix := JString EmptyString; Raw.assets := JArray [];
       Raw.baseUrl := JString EmptyString; Raw.candidates := JArray [];
       Raw.commit := JString defaultCommit; Raw.debug := JBoolean false;
       Raw.dryRun := JBoolean false; Raw.platform := JString EmptyString;
       Raw.repositoryUrl := JString EmptyString; Raw.title := JString defaultTitle;
       Raw.token := JString EmptyString |}.
Proof. vm_compute. reflexivity. Qed.

Example ensureDefault_gitlab_ci_server_url :
  ensureDefault Stub.options_apiPathPrefix (Some {[ "CI_SERVER_URL" := "some value" ]})
  = {| Raw.apiPathPrefix := JString "/api/v3"; Raw.assets := JArray [];
       Raw.baseUrl := JString "some value"; Raw.candidates := JArray [];
       Raw.commit := JString defaultCommit; Raw.debug := JBoolean false;
       Raw.dryRun := JBoolean false; Raw.platform := JString "gitlab";
       Raw.repositoryUrl := JString EmptyString; Raw.title := JString defaultTitle;
       Raw.token := JString EmptyString |}.
Proof. vm_compute. reflexivity. Qed.

(** C5, as stated, fails on the [validConfig] of the test suite: none of its
    fields is malformed in a listed way, yet its empty [repositoryUrl] makes
    [verifyConfig] throw. *)
Lemma verifyConfig_rejects_unlisted_field :
  (∀ key, malformed key (field (ensureDefault Stub.options_github Stub.env_token) key) = false)
  ∧ verifyConfig Stub.JSON_stringify (ensureDefault Stub.options_github Stub.env_token)
    = Throws
        (AggregateError
           [SemanticReleaseError
              "Invalid 'repositoryUrl' configuration (coming from semantic-release options)."
              "EINVALIDREPOSITORYURL" None]).
Proof.
  split; [intros key; destruct key; vm_compute; reflexivity |].
  vm_compute. reflexivity.
Qed.

(** C5, amended, on the options that the test suite expects to pass and on
    the empty options. *)
Lemma verifyConfig_errors_witness :
  (readable Key.candidates
     (Raw.candidates (ensureDefault Stub.options_complete Stub.env_token)) = true
   ∧ verifyConfig Stub.JSON_stringify (ensureDefault Stub.options_complete Stub.env_token)
     = Returns tt)
  ∧ (readable Key.candidates (Raw.candidates (ensureDefault Raw.empty None)) = true
     ∧ verifyConfig Stub.JSON_stringify (ensureDefault Raw.empty None)
       = Throws (AggregateError
                   (expected_errors Stub.JSON_stringify (ensureDefault Raw.empty None)))
     ∧ List.map
         (λ error, match error with
                   | SemanticReleaseError _ code _ => code
                   | _ => EmptyString
                   end)
         (expected_errors Stub.JSON_stringify (ensureDefault Raw.empty None))
       = ["EINVALIDBASEURL"; "EINVALIDPLATFORM"; "EINVALIDREPOSITORYURL"; "EINVALIDTOKEN"]).
Proof.
  split.
  - split; [vm_compute; reflexivity |].
    exact (proj1 (verifyConfig_errors Stub.JSON_stringify
                    (ensureDefault Stub.options_complete Stub.env_token)
                    ltac:(vm_compute; reflexivity))).
  - split; [vm_compute; reflexivity |]. split; [| vm_compute; reflexivity].
    exact (proj1 (verifyConfig_errors Stub.JSON_stringify (ensureDefault Raw.empty None)
                    ltac:(vm_compute; reflexivity))).
Defined.


(** * The further properties on concrete inputs *)

(** X1 on a remote with [main], [develop] and [staging]. *)
Lemma ls_branches_unlines_witness :
  Forall (λ head, printable_head head = true) Stub.head_list
  ∧ unlines (ls_remote_line <$> Stub.head_list) = Stub.heads
  ∧ ls_branches Stub.heads = ["main"; "develop"; "staging"].
Proof.
  assert (Hheads : Forall (λ head, printable_head head = true) Stub.head_list).
  { repeat constructor. }
  split; [exact Hheads |]. split; [reflexivity |].
  exact (proj1 (ls_branches_unlines Stub.head_list Hheads)).
Defined.

(** X3 on the same remote, for a release of [main]. *)
Lemma getBranches_sound_witness :
  completion_of (Stub.lists Stub.heads) (getBranches' (Stub.getContext "main") Stub.config)
  = Returns ["develop"]
  ∧ NoDup ["develop"]
  ∧ Context.branch_name (Stub.getContext "main") ∉ ["develop"].
Proof.
  assert (Hreturned :
    completion_of (Stub.lists Stub.heads)
      (getBranches' (Stub.getContext "main") Stub.config)
    = Returns ["develop"]).
  { vm_compute; reflexivity. }
  split; [exact Hreturned |].
  destruct (getBranches_sound Stub.JSON_stringify Stub.String_match (Stub.getContext "main")
              Stub.config (Stub.lists Stub.heads) ["develop"] Hreturned)
    as (Hnodup & Hnot & _).
  split; [exact Hnodup | exact Hnot].
Defined.

(** X4 in a world where [git fetch] fails. *)
Lemma getBranches_git_failure_witness :
  git_failure
    (trace_of (Stub.fails_on (is_git_command "fetch"))
       (getBranches' (Stub.getContext "main") Stub.config)) = true
  ∧ ∃ call error,
      last (trace_of (Stub.fails_on (is_git_command "fetch"))
              (getBranches' (Stub.getContext "main") Stub.config))
      = Some (call, Rejected error)
      ∧ is_git call = true
      ∧ completion_of (Stub.fails_on (is_git_command "fetch"))
          (getBranches' (Stub.getContext "main") Stub.config)
        = Throws error.
Proof.
  assert (Hfailure :
    git_failure
      (trace_of (Stub.fails_on (is_git_command "fetch"))
         (getBranches' (Stub.getContext "main") Stub.config)) = true).
  { vm_compute; reflexivity. }
  split; [exact Hfailure |].
  destruct (getBranches_git_failure Stub.JSON_stringify Stub.String_match
              (Stub.getContext "main") Stub.config
              (Stub.fails_on (is_git_command "fetch")) Hfailure)
    as (call & error & Hlast & Hgit & Hthrown & _).
  exists call, error. split; [exact Hlast |]. split; [exact Hgit | exact Hthrown].
Defined.

(** X5 in a world where [git commit] fails. *)
Lemma processRequest_fail_fast_witness :
  git_failure
    (trace_of (Stub.fails_on (is_git_command "commit"))
       (processRequest' (Stub.getContext "main") Stub.config)) = true
  ∧ ∃ call cause,
      last (trace_of (Stub.fails_on (is_git_command "commit"))
              (processRequest' (Stub.getContext "main") Stub.config))
      = Some (call, Rejected cause)
      ∧ is_git call = true
      ∧ completion_of (Stub.fails_on (is_git_command "commit"))
          (processRequest' (Stub.getContext "main") Stub.config)
        = Throws
            (SemanticReleaseError
               "Failed to add release assets to release/main/v0.0.0 branch. Not proceeded with release."
               "EPUSHASSETS" (Some (String_ cause))).
Proof.
  assert (Hfailure :
    git_failure
      (trace_of (Stub.fails_on (is_git_command "commit"))
         (processRequest' (Stub.getContext "main") Stub.config)) = true).
  { vm_compute; reflexivity. }
  split; [exact Hfailure |].
  exact (processRequest_fail_fast Stub.template Stub.GitUrl Stub.parse Stub.name Stub.owner
           Stub.authModificator (Stub.getContext "main") Stub.config
           (Stub.fails_on (is_git_command "commit")) Hfailure).
Defined.

(** X6 in a world where [git add] fails. *)
Lemma processRequest_throws_witness :
  completion_of (Stub.fails_on (is_git_command "add"))
    (processRequest' (Stub.getContext "main") Stub.config)
  = Throws
      (SemanticReleaseError
         "Failed to add release assets to release/main/v0.0.0 branch. Not proceeded with release."
         "EPUSHASSETS" (Some (String_ (JsError "an error message"))))
  ∧ calls is_createPR
      (trace_of (Stub.fails_on (is_git_command "add"))
         (processRequest' (Stub.getContext "main") Stub.config)) = false.
Proof.
  assert (Hthrown :
    completion_of (Stub.fails_on (is_git_command "add"))
      (processRequest' (Stub.getContext "main") Stub.config)
    = Throws
        (SemanticReleaseError
           "Failed to add release assets to release/main/v0.0.0 branch. Not proceeded with release."
           "EPUSHASSETS" (Some (String_ (JsError "an error message"))))).
  { vm_compute; reflexivity. }
  split; [exact Hthrown |].
  destruct (processRequest_throws Stub.template Stub.GitUrl Stub.parse Stub.name Stub.owner
              Stub.authModificator (Stub.getContext "main") Stub.config
              (Stub.fails_on (is_git_command "add")) _ Hthrown)
    as [[Hempty _] | (message & cause & _ & Hrequest & _)].
  - vm_compute in Hempty. discriminate Hempty.
  - exact Hrequest.
Defined.

(** X7 in a world where everything succeeds. *)
Lemma processRequest_request_witness :
  In (CreatePR "https://example.com" GITHUB "some token"
        {| Metadata.body := EmptyString;
           Metadata.from := "release/main/v0.0.0";
           Metadata.name := "semantic-release-requests";
           Metadata.owner := "kilianpaquier";
           Metadata.title := "Release candidate";
           Metadata.to := "main" |},
      Resolved EmptyString)
    (trace_of Stub.succeeds (processRequest' (Stub.getContext "main") Stub.config))
  ∧ calls (is_git_command "push")
      (trace_of Stub.succeeds (processRequest' (Stub.getContext "main") Stub.config)) = true
  ∧ completion_of Stub.succeeds (processRequest' (Stub.getContext "main") Stub.config)
    = Returns tt.
Proof.
  assert (Hcreated :
    In (CreatePR "https://example.com" GITHUB "some token"
          {| Metadata.body := EmptyString;
             Metadata.from := "release/main/v0.0.0";
             Metadata.name := "semantic-release-requests";
             Metadata.owner := "kilianpaquier";
             Metadata.title := "Release candidate";
             Metadata.to := "main" |},
        Resolved EmptyString)
      (trace_of Stub.succeeds (processRequest' (Stub.getContext "main") Stub.config))).
  { vm_compute. tauto. }
  split; [exact Hcreated |].
  destruct (processRequest_request Stub.template Stub.GitUrl Stub.parse Stub.name Stub.owner
              Stub.authModificator (Stub.getContext "main") Stub.config Stub.succeeds
              _ _ _ _ _ Hcreated)
    as (_ & _ & _ & _ & _ & _ & _ & _ & Hpush & Hreturned).
  split; [exact Hpush | exact Hreturned].
Defined.

(** X8 on two branches, in a world where the platform refuses every
    request. *)
Lemma createRequests_visits_all_witness :
  Typed.dryRun Stub.config = false
  ∧ request_targets
      (trace_of (Stub.fails_on is_createPR)
         (createRequests' (Stub.getContext "main") Stub.config ["develop"; "staging"]))
    = ["develop"; "staging"]
  ∧ request_sources
      (trace_of (Stub.fails_on is_createPR)
         (createRequests' (Stub.getContext "main") Stub.config ["develop"; "staging"]))
    = ["main"; "main"].
Proof.
  split; [reflexivity |].
  destruct (createRequests_visits_all Stub.template Stub.GitUrl Stub.parse Stub.name
              Stub.owner (Stub.getContext "main") Stub.config ["develop"; "staging"]
              (Stub.fails_on is_createPR)
              {| Stub.owner := "kilianpaquier"; Stub.name := "semantic-release-requests" |}
              eq_refl eq_refl
              (λ data, ex_intro _ (Typed.title Stub.config) eq_refl))
    as (Htargets & Hsources & _).
  split; [exact Htargets | exact Hsources].
Defined.

(** X9 on two branches. *)
Lemma createRequests_dryRun_logs_witness :
  Typed.dryRun (Stub.with_dryRun Stub.config) = true
  ∧ Forall (λ entry, ∃ data, entry.1 = LoggerLog data)
      (trace_of Stub.succeeds
         (createRequests' (Stub.getContext "main") (Stub.with_dryRun Stub.config)
            ["develop"; "staging"])).
Proof.
  split; [reflexivity |].
  exact (proj1 (createRequests_dryRun_logs Stub.template Stub.GitUrl Stub.parse Stub.name
                  Stub.owner (Stub.getContext "main") (Stub.with_dryRun Stub.config)
                  ["develop"; "staging"] Stub.succeeds eq_refl)).
Defined.

(** X10 on two branches, with a title template that does not evaluate. *)
Lemma createRequests_title_failure_witness :
  Typed.dryRun Stub.config = false
  ∧ ["develop"; "staging"] ≠ []
  ∧ trace_of Stub.succeeds
      (createRequests Stub.template_fails Stub.GitUrl Stub.parse Stub.name Stub.owner
         (Stub.getContext "main") Stub.config ["develop"; "staging"])
    = [].
Proof.
  assert (Hbranches : ["develop"; "staging"] ≠ @nil string) by discriminate.
  split; [reflexivity |]. split; [exact Hbranches |].
  exact (proj1 (createRequests_title_failure Stub.template_fails Stub.GitUrl Stub.parse
                  Stub.name Stub.owner (Stub.getContext "main") Stub.config
                  ["develop"; "staging"] Stub.succeeds
                  {| Stub.owner := "kilianpaquier"; Stub.name := "semantic-release-requests" |}
                  eq_refl eq_refl
                  (λ data, ex_intro _ (JsError "version is not defined") eq_refl)
                  Hbranches)).
Defined.

(** X12 on the options of the test [should throw an invalid platform with
    base url], in an empty environment: three fields are reported. *)
Lemma verifyConfig_one_error_per_field_witness :
  verifyConfig Stub.JSON_stringify (ensureDefault Stub.options_baseUrl None)
  = Throws (AggregateError
              (expected_errors Stub.JSON_stringify (ensureDefault Stub.options_baseUrl None)))
  ∧ length (expected_errors Stub.JSON_stringify (ensureDefault Stub.options_baseUrl None)) = 3
  ∧ NoDup (Exn_code
             <$> expected_errors Stub.JSON_stringify (ensureDefault Stub.options_baseUrl None)).
Proof.
  assert (Hthrown :
    verifyConfig Stub.JSON_stringify (ensureDefault Stub.options_baseUrl None)
    = Throws (AggregateError
                (expected_errors Stub.JSON_stringify
                   (ensureDefault Stub.options_baseUrl None)))).
  { vm_compute; reflexivity. }
  split; [exact Hthrown |]. split; [vm_compute; reflexivity |].
  exact (proj1 (proj2 (verifyConfig_one_error_per_field Stub.JSON_stringify _ _ Hthrown))).
Defined.

(** X13 on two tokens. *)
Lemma verifyConfig_hides_token_witness :
  non_empty_string (JString "first token") = non_empty_string (JString "second token")
  ∧ verifyConfig Stub.JSON_stringify
      (with_token (JString "first token") (ensureDefault Stub.options_baseUrl None))
    = verifyConfig Stub.JSON_stringify
        (with_token (JString "second token") (ensureDefault Stub.options_baseUrl None)).
Proof.
  split; [reflexivity |].
  exact (verifyConfig_hides_token Stub.JSON_stringify
           (ensureDefault Stub.options_baseUrl None)
           (JString "first token") (JString "second token") eq_refl).
Defined.


(** X18 on the options of the test [should be fine with base url], without
    the token that the test puts in the environment. *)
Lemma token_required_witness :
  default EmptyString (first_set None token_variables) = EmptyString
  ∧ verifyConfig Stub.JSON_stringify (ensureDefault Stub.options_complete None) ≠ Returns tt.
Proof.
  split; [reflexivity |].
  exact (proj2 (token_required Stub.JSON_stringify Stub.options_complete None eq_refl)).
Defined.

(** X19 on the options of the test [should throw an invalid platform with
    base url]. *)
Lemma baseUrl_requires_platform_witness :
  Js.truthy (Raw.baseUrl Stub.options_baseUrl) = true
  ∧ Js.nullish (Raw.platform Stub.options_baseUrl) = true
  ∧ Raw.platform (ensureDefault Stub.options_baseUrl Stub.env_github) = JString EmptyString
  ∧ verifyConfig Stub.JSON_stringify (ensureDefault Stub.options_baseUrl Stub.env_github)
    ≠ Returns tt.
Proof.
  split; [reflexivity |]. split; [reflexivity |].
  destruct (baseUrl_requires_platform Stub.JSON_stringify Stub.options_baseUrl
              Stub.env_github eq_refl eq_refl)
    as (Hplatform & _ & Hrejected).
  split; [exact Hplatform | exact Hrejected].
Defined.

(** X20 in a world where [git push] fails. *)
Lemma prepare_completion_witness :
  verifyConfig Stub.JSON_stringify
    (ensureDefault Stub.options_complete (Context.env Stub.context_main))
  = Returns tt
  ∧ git_failure
      (trace_of (Stub.fails_on (is_git_command "push"))
         (prepare' Stub.options_complete Stub.context_main)) = true
  ∧ completion_of (Stub.fails_on (is_git_command "push"))
      (prepare' Stub.options_complete Stub.context_main)
    = Returns tt.
Proof.
  assert (Hvalid :
    verifyConfig Stub.JSON_stringify
      (ensureDefault Stub.options_complete (Context.env Stub.context_main))
    = Returns tt).
  { vm_compute; reflexivity. }
  split; [exact Hvalid |]. split; [vm_compute; reflexivity |].
  exact (prepare_completion Stub.JSON_stringify Stub.template Stub.GitUrl Stub.parse
           Stub.name Stub.owner Stub.authModificator Stub.options_complete
           Stub.context_main (Stub.fails_on (is_git_command "push")) Hvalid).
Defined.

(** X21 on options without assets. *)
Lemma prepare_without_assets_witness :
  Js.nullish (Raw.assets Stub.options_fanout) = true
  ∧ verifyConfig Stub.JSON_stringify
      (ensureDefault Stub.options_fanout (Context.env Stub.context_main))
    = Returns tt
  ∧ run Stub.succeeds [] (prepare' Stub.options_fanout Stub.context_main) = ([], Returns tt).
Proof.
  assert (Hvalid :
    verifyConfig Stub.JSON_stringify
      (ensureDefault Stub.options_fanout (Context.env Stub.context_main))
    = Returns tt).
  { vm_compute; reflexivity. }
  split; [reflexivity |]. split; [exact Hvalid |].
  exact (prepare_without_assets Stub.JSON_stringify Stub.template Stub.GitUrl Stub.parse
           Stub.name Stub.owner Stub.authModificator Stub.options_fanout
           Stub.context_main Stub.succeeds eq_refl Hvalid).
Defined.

(** X23 on two candidate branches, in a world that would refuse the
    requests. *)
Lemma success_dryRun_witness :
  Raw.dryRun Stub.options_fanout_dryRun = JBoolean true
  ∧ completion_of Stub.refuses_requests
      (success' Stub.options_fanout_dryRun Stub.context_main) = Returns tt
  ∧ calls is_createPR
      (trace_of Stub.refuses_requests
         (success' Stub.options_fanout_dryRun Stub.context_main)) = false.
Proof.
  split; [reflexivity |]. split; [vm_compute; reflexivity |].
  exact (success_dryRun Stub.JSON_stringify Stub.String_match Stub.template Stub.GitUrl
           Stub.parse Stub.name Stub.owner Stub.instanceof_AggregateError
           Stub.options_fanout_dryRun Stub.context_main Stub.refuses_requests eq_refl).
Defined.

(** X24 in a world where [git fetch] fails. *)
Lemma success_throws_witness :
  verifyConditions Stub.JSON_stringify Stub.options_fanout Stub.context_main
  = Returns (ensureDefault Stub.options_fanout (Context.env Stub.context_main))
  ∧ completion_of (Stub.fails_on (is_git_command "fetch"))
      (success' Stub.options_fanout Stub.context_main)
    = Throws
        (SemanticReleaseError "Failed to create release candidates pull requests."
           "ERCPULLREQUESTS" (Some (String_ (JsError "an error message"))))
  ∧ (Stub.instanceof_AggregateError
       (SemanticReleaseError "Failed to create release candidates pull requests."
          "ERCPULLREQUESTS" (Some (String_ (JsError "an error message")))) = true
     ∨ instanceof_SemanticReleaseError
         (SemanticReleaseError "Failed to create release candidates pull requests."
            "ERCPULLREQUESTS" (Some (String_ (JsError "an error message")))) = true).
Proof.
  assert (Hverified :
    verifyConditions Stub.JSON_stringify Stub.options_fanout Stub.context_main
    = Returns (ensureDefault Stub.options_fanout (Context.env Stub.context_main))).
  { vm_compute; reflexivity. }
  assert (Hthrown :
    completion_of (Stub.fails_on (is_git_command "fetch"))
      (success' Stub.options_fanout Stub.context_main)
    = Throws
        (SemanticReleaseError "Failed to create release candidates pull requests."
           "ERCPULLREQUESTS" (Some (String_ (JsError "an error message"))))).
  { vm_compute; reflexivity. }
  split; [exact Hverified |]. split; [exact Hthrown |].
  exact (proj1 (success_throws Stub.JSON_stringify Stub.String_match Stub.template
                  Stub.GitUrl Stub.parse Stub.name Stub.owner
                  Stub.instanceof_AggregateError Stub.options_fanout Stub.context_main
                  (Stub.fails_on (is_git_command "fetch")) _ _ Hverified Hthrown)).
Defined.

(** X25 on the options of the test [should be fine with base url]. *)
Lemma verifyConfig_typed_witness :
  verifyConfig Stub.JSON_stringify (ensureDefault Stub.options_complete Stub.env_token)
  = Returns tt
  ∧ Raw.assets (ensureDefault Stub.options_complete Stub.env_token)
    = JArray (JString
                <$> Typed.assets
                      (as_RequestsConfig (ensureDefault Stub.options_complete Stub.env_token))).
Proof.
  assert (Hvalid :
    verifyConfig Stub.JSON_stringify (ensureDefault Stub.options_complete Stub.env_token)
    = Returns tt).
  { vm_compute; reflexivity. }
  split; [exact Hvalid |].
  exact (proj1 (proj2 (verifyConfig_typed Stub.JSON_stringify _ Hvalid))).
Defined.

(** X26 in a world where everything succeeds. *)
Lemma processRequest_dryRun_push_witness :
  Typed.dryRun (Stub.with_dryRun Stub.config) = true
  ∧ calls (is_git_command "push")
      (trace_of Stub.succeeds
         (processRequest' (Stub.getContext "main") (Stub.with_dryRun Stub.config))) = true
  ∧ pushes_dry
      (trace_of Stub.succeeds
         (processRequest' (Stub.getContext "main") (Stub.with_dryRun Stub.config))) = true.
Proof.
  split; [reflexivity |]. split; [vm_compute; reflexivity |].
  exact (processRequest_dryRun_push Stub.template Stub.GitUrl Stub.parse Stub.name Stub.owner
           Stub.authModificator (Stub.getContext "main") (Stub.with_dryRun Stub.config)
           Stub.succeeds eq_refl).
Defined.

(** X11 on candidates that hold a [null] entry. *)
Lemma verifyConfig_TypeError_witness :
  existsb Js.nullish [JNull] = true
  ∧ verifyConfig Stub.JSON_stringify (ensureDefault Stub.options_null_candidate Stub.env_token)
    = Throws TypeError.
Proof.
  split; [reflexivity |].
  apply (proj2 (verifyConfig_TypeError Stub.JSON_stringify
                  (ensureDefault Stub.options_null_candidate Stub.env_token))).
  exists [JNull]. split; reflexivity.
Defined.

(** X14 on the token: the error does not show the value. *)
Lemma getConfigError_identifies_witness :
  In Key.token [Key.token; Key.debug; Key.dryRun; Key.repositoryUrl]
  ∧ getConfigError Stub.JSON_stringify Key.token (JString "some token")
    = getConfigError Stub.JSON_stringify Key.token JUndefined.
Proof.
  assert (Hkey : In Key.token [Key.token; Key.debug; Key.dryRun; Key.repositoryUrl]).
  { left. reflexivity. }
  split; [exact Hkey |].
  exact (proj2 (getConfigError_identifies Stub.JSON_stringify Key.token Key.token
                  (JString "some token") JUndefined) Hkey).
Defined.
